(** * Holidays-API: the Streamlit script [app.py] as a state-passing program

    [app.py] is a Streamlit script: Streamlit executes it from top to bottom
    once per interaction (a "script run"), [st.session_state] survives from one
    run to the next, and [st.stop()] / [st.rerun()] end the current run early.

    The embedding follows the script line by line:
    - [st.session_state] is a record whose fields are [None] while the key has
      not been assigned yet;
    - the outside world of one run (secrets, the value returned by the map
      widget, the HTTP services, the clock) is a record [World];
    - everything the script shows or sends is appended to an output log of
      [Event]s, in program order;
    - exceptions and Streamlit's two control signals are the non-[Done]
      results of a small state-and-error monad, [Script]. *)

From Stdlib Require Import ZArith Ascii String List.
From Stdlib Require Import Floats.PrimFloat.
From stdpp Require Import base option gmap strings list.
Import ListNotations.

Local Open Scope string_scope.
Local Open Scope Z_scope.
Set Warnings "-register-all,-inexact-float".

(** ** Python values *)

(** What [response.json()] can return. Objects are Python dicts keyed by
    strings; JSON numbers arrive as [int] or [float]. *)
Inductive json : Type :=
| JNull
| JBool (b : bool)
| JInt (z : Z)
| JFloat (f : float)
| JStr (s : string)
| JArr (l : list json)
| JObj (o : gmap string json).

(** The exceptions the script can meet. [is_RequestException] is the subclass
    test of [except requests.exceptions.RequestException]: connection
    failures, [HTTPError] (from [raise_for_status]) and the [JSONDecodeError]
    of [response.json()] (requests >= 2.27) all derive from it. *)
Inductive Exn : Type :=
| ConnectionError (detail : string)
| HTTPError (status : Z)
| JSONDecodeError
| KeyError (key : string)
| FileNotFoundError
| TypeError
| AttributeError
| NameError
| FrameError
| RenderError.

Definition is_RequestException (e : Exn) : bool :=
  match e with
  | ConnectionError _ | HTTPError _ | JSONDecodeError => true
  | _ => false
  end.

(** [needle in hay] on two Python strings: substring test. *)
Fixpoint str_contains (needle hay : string) : bool :=
  String.prefix needle hay ||
  match hay with
  | EmptyString => false
  | String _ rest => str_contains needle rest
  end.

(** [k in v] for a string [k]: key membership on a dict, element membership
    on a list, substring on a string, [TypeError] on anything else. *)
Definition py_in (k : string) (v : json) : Exn + bool :=
  match v with
  | JObj o => inr (if o !! k is Some _ then true else false)
  | JArr l => inr (existsb (fun x => match x with
                                     | JStr s => String.eqb s k
                                     | _ => false
                                     end) l)
  | JStr s => inr (str_contains k s)
  | _ => inl TypeError
  end.

(** [v[k]] for a string [k]: only a dict accepts a string subscript. *)
Definition py_getitem (v : json) (k : string) : Exn + json :=
  match v with
  | JObj o => match o !! k with
              | Some x => inr x
              | None => inl (KeyError k)
              end
  | _ => inl TypeError
  end.

(** [v.get(k, d)]: a dict method. *)
Definition py_get (v : json) (k : string) (d : json) : Exn + json :=
  match v with
  | JObj o => inr (default d (o !! k))
  | _ => inl AttributeError
  end.

(** Truth value of a Python object, as tested by [if v:]. *)
Definition py_truthy (v : json) : bool :=
  match v with
  | JNull => false
  | JBool b => b
  | JInt z => negb (z =? 0)
  | JFloat f => negb (PrimFloat.eqb f 0%float)
  | JStr s => negb (String.eqb s EmptyString)
  | JArr l => match l with [] => false | _ => true end
  | JObj o => match map_to_list o with [] => false | _ => true end
  end.

(** ** A concrete runtime, for running the model on examples

    [str.upper()] consults the Unicode case tables, [pd.DataFrame] is pandas
    and [st.dataframe] is Streamlit's renderer; none is code of this
    repository.  The script below takes them as parameters.  The definitions
    here are the instances used to execute it: upper-casing of ASCII letters,
    the frame built from a list of records that all carry [date.iso], [name]
    and [description], and a renderer that accepts the frames whose cells
    are all strings. *)

Definition ascii_upper_char (c : ascii) : ascii :=
  let n := N_of_ascii c in
  if ((97 <=? n) && (n <=? 122))%N then ascii_of_N (n - 32) else c.

Fixpoint ascii_upper (s : string) : string :=
  match s with
  | EmptyString => EmptyString
  | String c rest => String (ascii_upper_char c) (ascii_upper rest)
  end.

(** One displayed row: the columns selected at lines 145-149. *)
Definition Row : Type := json * json * json.

Definition record_row (h : json) : option Row :=
  match py_getitem h "date", py_getitem h "name", py_getitem h "description" with
  | inr d, inr n, inr desc =>
      match py_getitem d "iso" with
      | inr iso => Some (iso, n, desc)
      | inl _ => None
      end
  | _, _, _ => None
  end.

Definition records_frame (holidays : json) : option (list Row) :=
  match holidays with
  | JArr l => mapM record_row l
  | _ => None
  end.

Definition is_text (v : json) : bool :=
  match v with
  | JStr _ => true
  | _ => false
  end.

Definition text_rows (rows : list Row) : bool :=
  forallb (fun row : Row =>
             let '(iso, name, description) := row in
             is_text iso && is_text name && is_text description) rows.

(** ** Session state, widget value, HTTP *)

(** The two-element list [[lat, lon]] stored under [center] and
    [clicked_location]. *)
Definition Coord : Type := float * float.

(** [st.session_state].  An outer [None] is a key that was never assigned.
    [clicked_location] and [country_code] can also hold Python's [None];
    [country_name] holds whatever [address.get("country", ...)] returned, with
    [JNull] for Python's [None]. *)
Record SessionState : Type := mkSession {
  center : option Coord;
  zoom : option Z;
  clicked_location : option (option Coord);
  country_code : option (option string);
  country_name : option json
}.

(** A session that has just started: no key assigned. *)
Definition new_session : SessionState := mkSession None None None None None.

(** The value of [st_folium(...)]: a dict whose ["last_clicked"] entry is
    [None] or [{"lat": .., "lng": ..}]. *)
Record LatLng : Type := mkLatLng { lat : float; lng : float }.
Record MapData : Type := mkMapData { last_clicked : option LatLng }.

Inductive Param : Type :=
| PFloat (f : float)
| PStr (s : string)
| PInt (z : Z).

(** The arguments of one [requests.get(url, params=.., headers=..)]. *)
Record Request : Type := mkRequest {
  url : string;
  params : list (string * Param);
  req_headers : list (string * string)
}.

(** A received HTTP response: [body] is [None] when it is not JSON. *)
Record Response : Type := mkResponse {
  status_code : Z;
  body : option json
}.

Inductive HttpResult : Type :=
| Unreachable (detail : string)
| Answered (r : Response).

(** Everything one script run reads from outside: [secrets] is [None] when
    there is no secrets file. *)
Record World : Type := mkWorld {
  secrets : option (gmap string string);
  map_data : option MapData;
  http : Request -> HttpResult;
  now_year : Z
}.

(** ** Output *)

(** The message templates of the script, by the line that shows them. *)
Inductive Message : Type :=
| MsgSecretMissing                    (* line 16 *)
| MsgSecretHint                       (* line 17 *)
| MsgCountryNotFound                  (* line 102 *)
| MsgGeocodeRequestError (e : Exn)    (* line 107 *)
| MsgGeocodeUnknownError (e : Exn)    (* line 111 *)
| MsgNoHolidays (name : json)         (* line 154 *)
| MsgBadResponseFormat                (* line 157 *)
| MsgHolidayRequestError (e : Exn)    (* line 161 *)
| MsgApiServerMessage (detail : json) (* line 166 *)
| MsgHolidayUnknownError (e : Exn)    (* line 171 *)
| MsgClickPrompt.                     (* line 174 *)

Inductive Event : Type :=
| EvError (m : Message)
| EvWarning (m : Message)
| EvInfo (m : Message)
| EvPageConfig
| EvTitle
| EvMarkdown
| EvMap (location : Coord) (zoom_start : Z) (marker : option Coord)
| EvSubheader (name : json) (code : string) (year : Z)
| EvDataframe (rows : list Row)
| EvJson (j : json)
| EvGet (r : Request).

(** ** The script monad *)

(** The interpreter state of one run: the session, the module-level variable
    [response] (unbound until a [requests.get] returns), and the output. *)
Record Machine : Type := mkMachine {
  session : SessionState;
  response : option Response;
  out : list Event
}.

(** How a block ends: normally, with a Python exception, or with one of
    Streamlit's control signals.  [st.stop()] and [st.rerun()] raise
    subclasses of [BaseException], which [except Exception] does not catch. *)
Inductive Result (A : Type) : Type :=
| Done (a : A)
| Raise (e : Exn)
| Stop
| Rerun.
Arguments Done {A} a.
Arguments Raise {A} e.
Arguments Stop {A}.
Arguments Rerun {A}.

Definition Script (A : Type) : Type := Machine -> Result A * Machine.

Definition ret {A} (a : A) : Script A := fun m => (Done a, m).

Definition bind {A B} (c : Script A) (k : A -> Script B) : Script B :=
  fun m =>
    match c m with
    | (Done a, m') => k a m'
    | (Raise e, m') => (Raise e, m')
    | (Stop, m') => (Stop, m')
    | (Rerun, m') => (Rerun, m')
    end.

Declare Scope script_scope.
Delimit Scope script_scope with script.
Notation "x <- c ;; k" := (bind c (fun x => k))
  (at level 100, c at next level, right associativity) : script_scope.
Notation "c ;; k" := (bind c (fun _ => k))
  (at level 100, right associativity) : script_scope.
Local Open Scope script_scope.

Definition raise {A} (e : Exn) : Script A := fun m => (Raise e, m).

(** A pure Python operation that may raise. *)
Definition lift {A} (r : Exn + A) : Script A :=
  match r with
  | inl e => raise e
  | inr a => ret a
  end.

(** [try: body except Exception as e: handler e].  Control signals pass. *)
Definition try_except {A} (body : Script A) (handler : Exn -> Script A) : Script A :=
  fun m =>
    match body m with
    | (Raise e, m') => handler e m'
    | r => r
    end.

Definition st_stop {A} : Script A := fun m => (Stop, m).
Definition st_rerun {A} : Script A := fun m => (Rerun, m).

Definition emit (e : Event) : Script unit :=
  fun m => (Done tt, mkMachine (session m) (response m) (out m ++ [e])).

Definition st_error (msg : Message) : Script unit := emit (EvError msg).
Definition st_warning (msg : Message) : Script unit := emit (EvWarning msg).
Definition st_info (msg : Message) : Script unit := emit (EvInfo msg).

Definition get_session : Script SessionState := fun m => (Done (session m), m).

Definition modify_session (f : SessionState -> SessionState) : Script unit :=
  fun m => (Done tt, mkMachine (f (session m)) (response m) (out m)).

(** Attribute reads [st.session_state.key]: [AttributeError] on a key that
    was never assigned. *)
Definition read_attr {A} (field : SessionState -> option A) : Script A :=
  s <- get_session ;;
  match field s with
  | Some v => ret v
  | None => raise AttributeError
  end.

Definition set_center (v : Coord) (s : SessionState) : SessionState :=
  mkSession (Some v) (zoom s) (clicked_location s) (country_code s) (country_name s).
Definition set_zoom (v : Z) (s : SessionState) : SessionState :=
  mkSession (center s) (Some v) (clicked_location s) (country_code s) (country_name s).
Definition set_clicked_location (v : option Coord) (s : SessionState) : SessionState :=
  mkSession (center s) (zoom s) (Some v) (country_code s) (country_name s).
Definition set_country_code (v : option string) (s : SessionState) : SessionState :=
  mkSession (center s) (zoom s) (clicked_location s) (Some v) (country_name s).
Definition set_country_name (v : json) (s : SessionState) : SessionState :=
  mkSession (center s) (zoom s) (clicked_location s) (country_code s) (Some v).

(** [response = requests.get(url, params=.., headers=..)]: the request goes
    out; a transport failure raises and leaves [response] as it was. *)
Definition requests_get (w : World) (r : Request) : Script Response :=
  emit (EvGet r) ;;
  match http w r with
  | Unreachable detail => raise (ConnectionError detail)
  | Answered resp =>
      fun m => (Done resp, mkMachine (session m) (Some resp) (out m))
  end.

(** [response.raise_for_status()]: [HTTPError] on a 4xx or 5xx status. *)
Definition raise_for_status (r : Response) : Script unit :=
  if (400 <=? status_code r) && (status_code r <? 600)
  then raise (HTTPError (status_code r))
  else ret tt.

(** [response.json()] *)
Definition response_json (r : Response) : Script json :=
  match body r with
  | Some j => ret j
  | None => raise JSONDecodeError
  end.

(** The module-level name [response], read: [NameError] while unbound. *)
Definition read_response : Script Response :=
  fun m =>
    match response m with
    | Some r => (Done r, m)
    | None => (Raise NameError, m)
    end.

(** [k1 in d and k2 in d[k1]], with Python's short-circuit. *)
Definition has_nested (k1 k2 : string) (d : json) : Script bool :=
  outer <- lift (py_in k1 d) ;;
  if outer : bool
  then inner <- lift (py_getitem d k1) ;; lift (py_in k2 inner)
  else ret false.

(** ** The script *)

(** Lines 22 and 25. *)
Definition REVERSE_GEOCODING_URL : string :=
  "https://nominatim.openstreetmap.org/reverse".
Definition CALENDARIFIC_API_URL : string :=
  "https://calendarific.com/api/v2/holidays".

(** [st.secrets[k]] *)
Definition secrets_getitem (w : World) (k : string) : Exn + string :=
  match secrets w with
  | None => inl FileNotFoundError
  | Some table =>
      match table !! k with
      | Some v => inr v
      | None => inl (KeyError k)
      end
  end.

(** Lines 11-18: the handler names [KeyError] and [FileNotFoundError] only. *)
Definition load_api_key (w : World) : Script string :=
  try_except (lift (secrets_getitem w "CALENDARIFIC_API_KEY"))
    (fun e =>
       match e with
       | KeyError _ | FileNotFoundError =>
           st_error MsgSecretMissing ;;
           st_error MsgSecretHint ;;
           st_stop
       | _ => raise e
       end).

(** [if key not in st.session_state: st.session_state.key = v] *)
Definition init_key {A} (field : SessionState -> option A)
    (assign : SessionState -> SessionState) : Script unit :=
  s <- get_session ;;
  if field s is Some _ then ret tt else modify_session assign.

(** Lines 28-33. *)
Definition init_session : Script unit :=
  init_key center (set_center (37.5665%float, 126.9780%float)) ;;
  init_key zoom (set_zoom 4) ;;
  init_key clicked_location (set_clicked_location None).

(** Lines 36-38. *)
Definition page_header : Script unit :=
  emit EvPageConfig ;; emit EvTitle ;; emit EvMarkdown.

(** Lines 42-61: the map is built from the session, gets a marker when
    [clicked_location] is a list, and the widget returns [map_data]. *)
Definition render_map (w : World) : Script (option MapData) :=
  location <- read_attr center ;;
  zoom_start <- read_attr zoom ;;
  marker <- read_attr clicked_location ;;
  emit (EvMap location zoom_start marker) ;;
  ret (map_data w).

(** Lines 76-84. *)
Definition nominatim_params (lat lon : float) : list (string * Param) :=
  [("lat", PFloat lat); ("lon", PFloat lon);
   ("format", PStr "json"); ("accept-language", PStr "en")].

Definition headers : list (string * string) :=
  [("User-Agent", "Streamlit Holiday App (user@example.com)")].

(** Lines 126-130. *)
Definition calendarific_params (API_KEY country : string) (year : Z)
    : list (string * Param) :=
  [("api_key", PStr API_KEY); ("country", PStr country); ("year", PInt year)].

(** The two assignments that end every branch but the successful one. *)
Definition clear_country : Script unit :=
  modify_session (set_country_code None) ;;
  modify_session (set_country_name JNull).

(** [st.session_state.get("country_code")] *)
Definition session_get_country_code (s : SessionState) : option string :=
  match country_code s with
  | Some v => v
  | None => None
  end.

(** ** Example worlds

    The scenarios of the specification, as concrete inputs. *)

Definition obj (fields : list (string * json)) : json := JObj (list_to_map fields).

Definition demo_secrets : gmap string string :=
  {[ "CALENDARIFIC_API_KEY" := "demo-key" ]}.

(** The two services, told apart by the URL of the request. *)
Definition services (geocoder holidays : HttpResult) (r : Request) : HttpResult :=
  if String.eqb (url r) REVERSE_GEOCODING_URL then geocoder else holidays.

Definition seoul : LatLng := mkLatLng 37.5665%float 126.9780%float.
Definition mid_ocean : LatLng := mkLatLng 0%float (-30)%float.

Definition json_200 (j : json) : HttpResult := Answered (mkResponse 200 (Some j)).

Definition korea : HttpResult :=
  json_200 (obj [("address",
     obj [("country", JStr "South Korea"); ("country_code", JStr "kr")])]).
Definition korea_unnamed : HttpResult :=
  json_200 (obj [("address", obj [("country_code", JStr "kr")])]).
Definition korea_null_name : HttpResult :=
  json_200 (obj [("address",
     obj [("country", JNull); ("country_code", JStr "kr")])]).
Definition nowhere : HttpResult :=
  json_200 (obj [("error", JStr "Unable to geocode")]).
Definition no_holidays : HttpResult :=
  json_200 (obj [("meta", obj [("code", JInt 200)]);
                 ("response", obj [("holidays", JArr [])])]).
Definition new_year : HttpResult :=
  json_200 (obj [("response", obj [("holidays",
     JArr [obj [("name", JStr "New Year's Day");
                ("description", JStr "First day of the year");
                ("date", obj [("iso", JStr "2026-01-01")])]])])]).
Definition unauthorized : HttpResult :=
  Answered (mkResponse 401
    (Some (obj [("meta", obj [("code", JInt 401)]); ("response", JArr [])]))).

Definition null_holidays : HttpResult :=
  json_200 (obj [("response", obj [("holidays", JNull)])]).
Definition no_response_field : HttpResult :=
  json_200 (obj [("meta", obj [("code", JInt 200)])]).
Definition null_body : HttpResult := json_200 JNull.
Definition timed_out : HttpResult := Unreachable "timed out".
Definition unauthorized_with_message : HttpResult :=
  Answered (mkResponse 401
    (Some (obj [("response", obj [("error", JStr "Invalid API key")])]))).
Definition numeric_country_code : HttpResult :=
  json_200 (obj [("address", obj [("country_code", JInt 410)])]).

Definition world (keys : option (gmap string string)) (click : option LatLng)
    (geocoder holidays : HttpResult) : World :=
  mkWorld keys (Some (mkMapData click)) (services geocoder holidays) 2026.

(** A session in which South Korea is resolved. *)
Definition korea_session : SessionState :=
  mkSession (Some (37.5665%float, 126.9780%float)) (Some 6)
    (Some (Some (37.5665%float, 126.9780%float)))
    (Some (Some "KR")) (Some (JStr "South Korea")).

Section App.

(** [str.upper()], the frame construction of lines 142-149 ([None]: pandas
    raised) and whether [st.dataframe] (line 151) renders a frame or raises,
    supplied by the Python runtime. *)
Variable str_upper : string -> string.
Variable holidays_frame : json -> option (list Row).
Variable dataframe_accepts : list Row -> bool.

(** [st.dataframe(df_display, ...)], line 151: the table is shown, or the
    renderer raises. *)
Definition st_dataframe (rows : list Row) : Script unit :=
  if dataframe_accepts rows then emit (EvDataframe rows) else raise RenderError.

(** [v.upper()]: a [str] method. *)
Definition py_upper (v : json) : Exn + string :=
  match v with
  | JStr s => inr (str_upper s)
  | _ => inl AttributeError
  end.

(** Lines 75-113. *)
Definition resolve_country (w : World) (lat lon : float) : Script unit :=
  try_except
    (response <- requests_get w
        (mkRequest REVERSE_GEOCODING_URL (nominatim_params lat lon) headers) ;;
     raise_for_status response ;;
     geo_data <- response_json response ;;
     found <- has_nested "address" "country_code" geo_data ;;
     if found : bool then
       address <- lift (py_getitem geo_data "address") ;;
       raw <- lift (py_getitem address "country_code") ;;
       country_code <- lift (py_upper raw) ;;
       address <- lift (py_getitem geo_data "address") ;;
       country_name <- lift (py_get address "country" (JStr country_code)) ;;
       modify_session (set_country_code (Some country_code)) ;;
       modify_session (set_country_name country_name) ;;
       st_rerun
     else
       st_warning MsgCountryNotFound ;;
       clear_country)
    (fun e =>
       if is_RequestException e
       then st_error (MsgGeocodeRequestError e) ;; clear_country
       else st_error (MsgGeocodeUnknownError e) ;; clear_country).

(** Lines 64-113. *)
Definition handle_click (w : World) (map_data : option MapData) : Script unit :=
  match map_data with
  | Some data =>
      match last_clicked data with
      | Some point =>
          let lat := lat point in
          let lon := lng point in
          modify_session (set_clicked_location (Some (lat, lon))) ;;
          modify_session (set_center (lat, lon)) ;;
          modify_session (set_zoom 6) ;;
          resolve_country w lat lon
      | None => ret tt
      end
  | None => ret tt
  end.

(** Lines 163-168: the server's own message, when the failed response has
    one; any exception in here is swallowed. *)
Definition show_server_message : Script unit :=
  try_except
    (failed <- read_response ;;
     error_json <- response_json failed ;;
     found <- has_nested "response" "error" error_json ;;
     if found : bool then
       inner <- lift (py_getitem error_json "response") ;;
       detail <- lift (py_getitem inner "error") ;;
       st_error (MsgApiServerMessage detail)
     else ret tt)
    (fun _ => ret tt).

(** Lines 124-171. *)
Definition fetch_holidays (w : World) (API_KEY country_code : string)
    (country_name : json) (current_year : Z) : Script unit :=
  try_except
    (response <- requests_get w
        (mkRequest CALENDARIFIC_API_URL
           (calendarific_params API_KEY country_code current_year) []) ;;
     raise_for_status response ;;
     holiday_data <- response_json response ;;
     found <- has_nested "response" "holidays" holiday_data ;;
     if found : bool then
       inner <- lift (py_getitem holiday_data "response") ;;
       holidays <- lift (py_getitem inner "holidays") ;;
       if py_truthy holidays then
         match holidays_frame holidays with
         | Some rows => st_dataframe rows
         | None => raise FrameError
         end
       else st_info (MsgNoHolidays country_name)
     else
       st_error MsgBadResponseFormat ;;
       emit (EvJson holiday_data))
    (fun e =>
       if is_RequestException e
       then st_error (MsgHolidayRequestError e) ;; show_server_message
       else st_error (MsgHolidayUnknownError e)).

(** Lines 117-174: the guard is the truth value of
    [st.session_state.get("country_code")]; inside, line 118 reads the same
    string again. *)
Definition show_holidays (w : World) (API_KEY : string) : Script unit :=
  s <- get_session ;;
  match session_get_country_code s with
  | Some code =>
      if negb (String.eqb code EmptyString) then
        country_name <- read_attr country_name ;;
        let current_year := now_year w in
        emit (EvSubheader country_name code current_year) ;;
        fetch_holidays w API_KEY code country_name current_year
      else st_info MsgClickPrompt
  | None => st_info MsgClickPrompt
  end.

(** The whole file, top to bottom. *)
Definition app (w : World) : Script unit :=
  API_KEY <- load_api_key w ;;
  init_session ;;
  page_header ;;
  map_data <- render_map w ;;
  handle_click w map_data ;;
  show_holidays w API_KEY.

(** One script run on session [s]: a fresh module namespace ([response]
    unbound) and an empty page. *)
Definition run (w : World) (s : SessionState) : Result unit * Machine :=
  app w (mkMachine s None []).

Definition result_of (w : World) (s : SessionState) : Result unit := fst (run w s).
Definition session_after (w : World) (s : SessionState) : SessionState :=
  session (snd (run w s)).
Definition output_of (w : World) (s : SessionState) : list Event :=
  out (snd (run w s)).

(** A session is a sequence of script runs, each in its own world, the
    session state handed from one to the next whatever way the run ended. *)
Definition run_session (ws : list World) (s : SessionState) : SessionState :=
  fold_left (fun acc w => session_after w acc) ws s.


(** ** Reading a run *)

(** The point clicked in this run: [map_data and map_data.get("last_clicked")]. *)
Definition clicked_point (w : World) : option LatLng :=
  match map_data w with
  | Some data => last_clicked data
  | None => None
  end.

(** [raise_for_status()] lets the response through. *)
Definition status_ok (r : Response) : bool :=
  negb ((400 <=? status_code r) && (status_code r <? 600)).

(** The geocoding contract in the words of the specification: the call
    succeeds with a country code when the service answers with a success
    status and a JSON object whose [address] object has a string
    [country_code].  The result is that code and the address object. *)
Definition resolved_country (h : HttpResult) : option (string * gmap string json) :=
  match h with
  | Unreachable _ => None
  | Answered r =>
      if status_ok r then
        match body r with
        | Some (JObj o) =>
            match o !! "address" with
            | Some (JObj address) =>
                match address !! "country_code" with
                | Some (JStr code) => Some (code, address)
                | _ => None
                end
            | _ => None
            end
        | _ => None
        end
      else None
  end.

(** The holiday service "fails": transport error or non-success status. *)
Definition fetch_failed (h : HttpResult) : bool :=
  match h with
  | Unreachable _ => true
  | Answered r => negb (status_ok r)
  end.

(** The holiday service answers with a well-formed, empty holiday list. *)
Definition empty_holidays (h : HttpResult) : bool :=
  match h with
  | Unreachable _ => false
  | Answered r =>
      status_ok r &&
      match body r with
      | Some (JObj o) =>
          match o !! "response" with
          | Some (JObj inner) =>
              match inner !! "holidays" with
              | Some (JArr []) => true
              | _ => false
              end
          | _ => false
          end
      | _ => false
      end
  end.

Definition geocode_request (p : LatLng) : Request :=
  mkRequest REVERSE_GEOCODING_URL (nominatim_params (lat p) (lng p)) headers.

Definition is_geocode_get (e : Event) : bool :=
  match e with
  | EvGet r => String.eqb (url r) REVERSE_GEOCODING_URL
  | _ => false
  end.

Definition is_holiday_get (e : Event) : bool :=
  match e with
  | EvGet r => String.eqb (url r) CALENDARIFIC_API_URL
  | _ => false
  end.

(** A warning or an error shown to the user. *)
Definition is_alert (e : Event) : bool :=
  match e with
  | EvError _ | EvWarning _ => true
  | _ => false
  end.

Definition is_error (e : Event) : bool :=
  match e with
  | EvError _ => true
  | _ => false
  end.

Definition is_table (e : Event) : bool :=
  match e with
  | EvDataframe _ => true
  | _ => false
  end.

(** Anything rendered other than an error box: page furniture, the map,
    results. *)
Definition is_other_ui (e : Event) : bool :=
  match e with
  | EvError _ | EvGet _ => false
  | _ => true
  end.

Definition is_request (e : Event) : bool :=
  match e with
  | EvGet _ => true
  | _ => false
  end.

(** The session after [init_session]. *)
Definition with_defaults (s : SessionState) : SessionState :=
  mkSession
    (Some (default (37.5665%float, 126.9780%float) (center s)))
    (Some (default 4 (zoom s)))
    (Some (default None (clicked_location s)))
    (country_code s) (country_name s).

(** What is on the page when the map widget returns. *)
Definition page_top (s : SessionState) : list Event :=
  [EvPageConfig; EvTitle; EvMarkdown;
   EvMap (default (37.5665%float, 126.9780%float) (center s))
         (default 4 (zoom s))
         (default None (clicked_location s))].

(** The session after lines 70-72. *)
Definition with_click (p : LatLng) (s : SessionState) : SessionState :=
  set_zoom 6 (set_center (lat p, lng p)
    (set_clicked_location (Some (lat p, lng p)) s)).

Definition with_country (code : option string) (name : json) (s : SessionState)
    : SessionState :=
  set_country_name name (set_country_code code s).

(** The guard of line 117 as a boolean. *)
Definition has_country_code (s : SessionState) : bool :=
  match session_get_country_code s with
  | Some code => negb (String.eqb code EmptyString)
  | None => false
  end.


(** [country_code] holds a string (it is neither unassigned nor [None]). *)
Definition country_code_set (s : SessionState) : bool :=
  match country_code s with
  | Some (Some _) => true
  | _ => false
  end.


Definition is_rerun (r : Result unit) : bool :=
  match r with
  | Rerun => true
  | _ => false
  end.

Definition holiday_request (API_KEY code : string) (year : Z) : Request :=
  mkRequest CALENDARIFIC_API_URL (calendarific_params API_KEY code year) [].

Definition not_request (e : Event) : bool := negb (is_request e).

(** How many holiday requests a run sent. *)
Definition holiday_fetches (evs : list Event) : nat :=
  length (List.filter is_holiday_get evs).

(** The configured API key, if [st.secrets] has one. *)
Definition configured_key (w : World) : option string :=
  match secrets_getitem w "CALENDARIFIC_API_KEY" with
  | inr k => Some k
  | inl _ => None
  end.

(** The six shapes a script run can take, each with the machine it ends in:
    halted for want of the key; no click and no country (the prompt); no click
    and a country (the holiday fetch); no click, a country code but no name
    (line 119 raises); a click that resolves (restart); a click that does
    not. *)
Inductive RunCase (w : World) (s : SessionState) : Prop :=
| RunHalted :
    configured_key w = None ->
    run w s =
      (Stop, mkMachine s None [EvError MsgSecretMissing; EvError MsgSecretHint]) ->
    RunCase w s
| RunPrompt (k : string) :
    configured_key w = Some k ->
    clicked_point w = None ->
    has_country_code s = false ->
    run w s =
      (Done tt,
       mkMachine (with_defaults s) None (page_top s ++ [EvInfo MsgClickPrompt])) ->
    RunCase w s
| RunFetch (k c : string) (n : json) (r : option Response) (tail : list Event) :
    configured_key w = Some k ->
    clicked_point w = None ->
    session_get_country_code s = Some c ->
    has_country_code s = true ->
    country_name s = Some n ->
    run w s =
      (Done tt,
       mkMachine (with_defaults s) r
         (page_top s ++ EvSubheader n c (now_year w)
                     :: EvGet (holiday_request k c (now_year w)) :: tail)) ->
    forallb not_request tail = true ->
    (fetch_failed (http w (holiday_request k c (now_year w))) = true ->
       existsb is_error tail = true /\ existsb is_table tail = false) ->
    (empty_holidays (http w (holiday_request k c (now_year w))) = true ->
       tail = [EvInfo (MsgNoHolidays n)]) ->
    RunCase w s
| RunUnnamed (k : string) :
    configured_key w = Some k ->
    clicked_point w = None ->
    has_country_code s = true ->
    country_name s = None ->
    run w s = (Raise AttributeError, mkMachine (with_defaults s) None (page_top s)) ->
    RunCase w s
| RunResolved (k : string) (p : LatLng) (code : string)
    (address : gmap string json) (r : option Response) :
    configured_key w = Some k ->
    clicked_point w = Some p ->
    resolved_country (http w (geocode_request p)) = Some (code, address) ->
    run w s =
      (Rerun,
       mkMachine
         (with_country (Some (str_upper code))
            (default (JStr (str_upper code)) (address !! "country"))
            (with_click p (with_defaults s)))
         r (page_top s ++ [EvGet (geocode_request p)])) ->
    RunCase w s
| RunUnresolved (k : string) (p : LatLng) (r : option Response) (alert : Event) :
    configured_key w = Some k ->
    clicked_point w = Some p ->
    resolved_country (http w (geocode_request p)) = None ->
    is_alert alert = true ->
    run w s =
      (Done tt,
       mkMachine (with_country None JNull (with_click p (with_defaults s))) r
         (page_top s ++ [EvGet (geocode_request p); alert; EvInfo MsgClickPrompt])) ->
    RunCase w s.

(** The geocode request a run sent, if it sent one. *)
Definition geocode_sent (evs : list Event) : option Request :=
  match List.filter is_geocode_get evs with
  | EvGet r :: _ => Some r
  | _ => None
  end.

(** The most recent geocode call of a session, as the runs in [ws] follow one
    another from session [s]: [None] while no call has been made, otherwise
    what that call resolved to, in the sense of [resolved_country]. *)
Fixpoint last_geocode (ws : list World) (s : SessionState)
    (sofar : option (option (string * gmap string json)))
    : option (option (string * gmap string json)) :=
  match ws with
  | [] => sofar
  | w :: rest =>
      last_geocode rest (session_after w s)
        (match geocode_sent (output_of w s) with
         | Some r => Some (resolved_country (http w r))
         | None => sofar
         end)
  end.

(** The most recent geocode call succeeded with a country code. *)
Definition geocode_succeeded (g : option (option (string * gmap string json)))
    : bool :=
  match g with
  | Some (Some _) => true
  | _ => false
  end.

(** What the session holds about the country, given the most recent geocode
    call. *)
Definition country_matches (s : SessionState)
    (g : option (option (string * gmap string json))) : Prop :=
  match g with
  | None => country_code s = None /\ country_name s = None
  | Some None => country_code s = Some None /\ country_name s = Some JNull
  | Some (Some (code, address)) =>
      country_code s = Some (Some (str_upper code)) /\
      country_name s =
        Some (default (JStr (str_upper code)) (address !! "country"))
  end.

(** *** Reading the results section *)

(** A run that gets as far as the holiday request: the key is configured, no
    click is reported, and the session holds the non-empty code [c] and the
    name [n]. *)
Definition fetching (w : World) (s : SessionState) (k c : string) (n : json)
    : Prop :=
  configured_key w = Some k /\
  clicked_point w = None /\
  session_get_country_code s = Some c /\
  has_country_code s = true /\
  country_name s = Some n.

(** The page of such a run down to the request. *)
Definition results_top (w : World) (s : SessionState) (k c : string) (n : json)
    : list Event :=
  page_top s ++
  [EvSubheader n c (now_year w); EvGet (holiday_request k c (now_year w))].

(** The value under [response.holidays] of a 2xx answer whose body is an
    object with an object under [response]. *)
Definition answered_holidays (h : HttpResult) : option json :=
  match h with
  | Unreachable _ => None
  | Answered r =>
      if status_ok r then
        match body r with
        | Some (JObj o) =>
            match o !! "response" with
            | Some (JObj inner) => inner !! "holidays"
            | _ => None
            end
        | _ => None
        end
      else None
  end.

(** A 2xx answer whose body is an object without [response.holidays]: no
    [response] key, or an object under it that has no [holidays] key. *)
Definition lacks_holidays (h : HttpResult) : option json :=
  match h with
  | Unreachable _ => None
  | Answered r =>
      if status_ok r then
        match body r with
        | Some (JObj o) =>
            match o !! "response" with
            | None => Some (JObj o)
            | Some (JObj inner) =>
                if inner !! "holidays" is Some _ then None else Some (JObj o)
            | _ => None
            end
        | _ => None
        end
      else None
  end.

(** A 2xx answer whose body is JSON null, a boolean or a number. *)
Definition scalar_body (h : HttpResult) : bool :=
  match h with
  | Unreachable _ => false
  | Answered r =>
      status_ok r &&
      match body r with
      | Some (JNull | JBool _ | JInt _ | JFloat _) => true
      | _ => false
      end
  end.

(** An error-status answer whose body carries [response.error]: the status
    and that value. *)
Definition server_error (h : HttpResult) : option (Z * json) :=
  match h with
  | Unreachable _ => None
  | Answered r =>
      if status_ok r then None
      else
        match body r with
        | Some (JObj o) =>
            match o !! "response" with
            | Some (JObj inner) =>
                match inner !! "error" with
                | Some detail => Some (status_code r, detail)
                | None => None
                end
            | _ => None
            end
        | _ => None
        end
  end.

(** *** Reading the geocoding *)

(** A 2xx geocoder answer whose body is an object without
    [address.country_code]: no [address] key, or an object under it that has
    no [country_code] key. *)
Definition lacks_country (h : HttpResult) : bool :=
  match h with
  | Unreachable _ => false
  | Answered r =>
      status_ok r &&
      match body r with
      | Some (JObj o) =>
          match o !! "address" with
          | None => true
          | Some (JObj address) =>
              if address !! "country_code" is Some _ then false else true
          | _ => false
          end
      | _ => false
      end
  end.

(** A 2xx geocoder answer with an [address.country_code] that is not a
    string. *)
Definition mistyped_country (h : HttpResult) : bool :=
  match h with
  | Unreachable _ => false
  | Answered r =>
      status_ok r &&
      match body r with
      | Some (JObj o) =>
          match o !! "address" with
          | Some (JObj address) =>
              match address !! "country_code" with
              | Some (JStr _) | None => false
              | Some _ => true
              end
          | _ => false
          end
      | _ => false
      end
  end.

(** The exception of a request that did not get a usable status: the
    transport failure, or the [HTTPError] of [raise_for_status()]. *)
Definition request_error (h : HttpResult) : option Exn :=
  match h with
  | Unreachable detail => Some (ConnectionError detail)
  | Answered r =>
      if status_ok r then None else Some (HTTPError (status_code r))
  end.

(** *** Counting and the map *)

Definition request_count (evs : list Event) : nat :=
  length (List.filter is_request evs).

Definition geocode_fetches (evs : list Event) : nat :=
  length (List.filter is_geocode_get evs).

(** The three fields the map is drawn from agree: nothing assigned yet; the
    defaults (Seoul, zoom 4) with no click so far; or the clicked point as
    centre at zoom 6. *)
Definition map_consistent (s : SessionState) : Prop :=
  match clicked_location s with
  | None => center s = None /\ zoom s = None
  | Some None =>
      center s = Some (37.5665%float, 126.9780%float) /\ zoom s = Some 4
  | Some (Some c) => center s = Some c /\ zoom s = Some 6
  end.

(** ** Symbolic execution of the script, block by block *)

Ltac script_unfold :=
  unfold st_error, st_warning, st_info, st_dataframe, clear_country, read_attr,
    init_key, get_session, modify_session, emit, lift, raise_for_status,
    response_json, read_response, has_nested, requests_get,
    try_except, bind, ret, raise, st_stop, st_rerun in *.

Lemma load_api_key_found (w : World) (k : string) (m : Machine) :
  secrets_getitem w "CALENDARIFIC_API_KEY" = inr k ->
  load_api_key w m = (Done k, m).
Proof.
  intros H. unfold load_api_key. script_unfold. rewrite H. reflexivity.
Qed.

Lemma load_api_key_missing (w : World) (e : Exn) (m : Machine) :
  secrets_getitem w "CALENDARIFIC_API_KEY" = inl e ->
  load_api_key w m =
    (Stop, mkMachine (session m) (response m)
             ((out m ++ [EvError MsgSecretMissing]) ++ [EvError MsgSecretHint])).
Proof.
  intros H. unfold load_api_key. script_unfold. rewrite H.
  unfold secrets_getitem in H.
  destruct (secrets w) as [table|]; [destruct (table !! _)|];
    inversion H; reflexivity.
Qed.

Lemma init_session_run (s : SessionState) (r : option Response) (o : list Event) :
  init_session (mkMachine s r o) = (Done tt, mkMachine (with_defaults s) r o).
Proof.
  destruct s as [c z cl cc cn]. unfold init_session. script_unfold.
  destruct c, z, cl; reflexivity.
Qed.

Lemma app_after_key (w : World) (k : string) (s : SessionState) :
  secrets_getitem w "CALENDARIFIC_API_KEY" = inr k ->
  run w s =
    (handle_click w (map_data w) ;; show_holidays w k)
      (mkMachine (with_defaults s) None (page_top s)).
Proof.
  intros H. unfold run, app.
  unfold bind at 1. rewrite (load_api_key_found _ _ _ H).
  unfold bind at 1. rewrite init_session_run.
  unfold page_header, render_map. script_unfold. reflexivity.
Qed.

Lemma run_no_key (w : World) (e : Exn) (s : SessionState) :
  secrets_getitem w "CALENDARIFIC_API_KEY" = inl e ->
  run w s = (Stop, mkMachine s None [EvError MsgSecretMissing; EvError MsgSecretHint]).
Proof.
  intros H. unfold run, app, bind.
  rewrite (load_api_key_missing _ _ _ H). reflexivity.
Qed.

Lemma run_no_click (w : World) (k : string) (s : SessionState) :
  secrets_getitem w "CALENDARIFIC_API_KEY" = inr k ->
  clicked_point w = None ->
  run w s = show_holidays w k (mkMachine (with_defaults s) None (page_top s)).
Proof.
  intros H Hc. rewrite (app_after_key _ _ _ H).
  unfold clicked_point in Hc. unfold handle_click, bind, ret.
  destruct (map_data w) as [data|]; [rewrite Hc|]; reflexivity.
Qed.

Lemma run_click (w : World) (k : string) (p : LatLng) (s : SessionState) :
  secrets_getitem w "CALENDARIFIC_API_KEY" = inr k ->
  clicked_point w = Some p ->
  run w s =
    (resolve_country w (lat p) (lng p) ;; show_holidays w k)
      (mkMachine (with_click p (with_defaults s)) None (page_top s)).
Proof.
  intros H Hc. rewrite (app_after_key _ _ _ H).
  unfold clicked_point in Hc. unfold handle_click.
  destruct (map_data w) as [data|]; [rewrite Hc|discriminate].
  reflexivity.
Qed.

Lemma resolve_country_ok (w : World) (p : LatLng) (m : Machine)
    (code : string) (address : gmap string json) :
  resolved_country (http w (geocode_request p)) = Some (code, address) ->
  exists r,
    resolve_country w (lat p) (lng p) m =
      (Rerun,
       mkMachine
         (with_country (Some (str_upper code))
            (default (JStr (str_upper code)) (address !! "country")) (session m))
         (Some r) (out m ++ [EvGet (geocode_request p)])).
Proof.
  unfold resolved_country, resolve_country, status_ok, geocode_request.
  script_unfold. intros H.
  destruct (http w _) as [d|r]; [discriminate|].
  exists r. cbn.
  destruct ((400 <=? status_code r) && (status_code r <? 600)); [discriminate|].
  cbn in *.
  destruct (body r) as [[| | | | | |o]|]; try discriminate.
  cbn. destruct (o !! "address") as [[| | | | | |a]|] eqn:Ha; try discriminate.
  cbn.
  destruct (a !! "country_code") as [[| | | |c| |]|] eqn:Hc; try discriminate.
  inversion H; subst. reflexivity.
Qed.

Lemma resolve_country_fail (w : World) (p : LatLng) (m : Machine) :
  resolved_country (http w (geocode_request p)) = None ->
  exists r alert,
    is_alert alert = true /\
    resolve_country w (lat p) (lng p) m =
      (Done tt,
       mkMachine (with_country None JNull (session m)) r
         ((out m ++ [EvGet (geocode_request p)]) ++ [alert])).
Proof.
  unfold resolved_country, resolve_country, status_ok, geocode_request.
  script_unfold. intros H.
  assert (Hclose : forall (r : option Response) (a : Event) (X : Result unit * Machine),
             is_alert a = true ->
             X = (Done tt, mkMachine (with_country None JNull (session m)) r
                    ((out m ++ [EvGet (geocode_request p)]) ++ [a])) ->
             exists r alert, is_alert alert = true /\
               X = (Done tt, mkMachine (with_country None JNull (session m)) r
                      ((out m ++ [EvGet (geocode_request p)]) ++ [alert])))
    by (intros r a X Ha HX; exists r, a; auto).
  destruct (http w _) as [d|r]; cbn.
  { eapply Hclose; [|reflexivity]; reflexivity. }
  destruct ((400 <=? status_code r) && (status_code r <? 600)); cbn in *.
  { eapply Hclose; [|reflexivity]; reflexivity. }
  destruct (body r) as [[| | | |s|l|o]|]; cbn;
    try (eapply Hclose; [|reflexivity]; reflexivity).
  - destruct (str_contains "address" s); cbn;
      (eapply Hclose; [|reflexivity]; reflexivity).
  - destruct (existsb _ l); cbn;
      (eapply Hclose; [|reflexivity]; reflexivity).
  - destruct (o !! "address") as [[| | | |s|l|a]|] eqn:Ha; cbn;
      try (eapply Hclose; [|reflexivity]; reflexivity).
    + destruct (str_contains "country_code" s); cbn;
        (eapply Hclose; [|reflexivity]; reflexivity).
    + destruct (existsb _ l); cbn;
        (eapply Hclose; [|reflexivity]; reflexivity).
    + destruct (a !! "country_code") as [[| | | |c| |]|] eqn:Hc;
        try discriminate; cbn;
        (eapply Hclose; [|reflexivity]; reflexivity).
Qed.

Lemma show_server_message_run (m : Machine) :
  exists tail,
    show_server_message m =
      (Done tt, mkMachine (session m) (response m) (out m ++ tail)) /\
    forallb is_error tail = true.
Proof.
  destruct m as [sess resp o0].
  assert (Hnil : exists tail,
             (Done tt, mkMachine sess resp o0) =
               (Done tt, mkMachine sess resp (o0 ++ tail)) /\
             forallb is_error tail = true).
  { exists []. rewrite app_nil_r. auto. }
  unfold show_server_message. script_unfold. cbn.
  destruct resp as [r|]; cbn; [|exact Hnil].
  destruct (body r) as [[| | | |s|l|o]|]; cbn; try exact Hnil.
  - destruct (str_contains "response" s); cbn; exact Hnil.
  - destruct (existsb _ l); cbn; exact Hnil.
  - destruct (o !! "response") as [[| | | |s|l|a]|] eqn:Ha; cbn; try exact Hnil.
    + destruct (str_contains "error" s); cbn; exact Hnil.
    + destruct (existsb _ l); cbn; exact Hnil.
    + destruct (a !! "error") as [d|] eqn:Hd; cbn; [|exact Hnil].
      exists [EvError (MsgApiServerMessage d)]. split; reflexivity.
Qed.

Lemma errors_only (l : list Event) :
  forallb is_error l = true ->
  forallb not_request l = true /\ existsb is_table l = false.
Proof.
  induction l as [|e l IH]; cbn; [auto|].
  intros H. apply andb_prop in H. destruct H as [He Hl].
  destruct (IH Hl) as [H1 H2]. rewrite H1, H2.
  destruct e; try discriminate; auto.
Qed.

Ltac close_fetch :=
  do 2 eexists; split;
  [ rewrite <- ?app_assoc; reflexivity
  | cbn; repeat split; intros; try discriminate; auto ].

Ltac use_server_message :=
  match goal with
  | |- context [show_server_message ?M] =>
      let t := fresh "tail" in
      let Hs := fresh "Hs" in
      let Ht := fresh "Ht" in
      destruct (show_server_message_run M) as (t & Hs & Ht);
      rewrite Hs; cbn;
      destruct (errors_only _ Ht) as [? ?];
      do 2 eexists; split;
      [ rewrite <- ?app_assoc; reflexivity
      | cbn; repeat split; intros; try discriminate; auto ]
  end.

Lemma fetch_holidays_run (w : World) (k c : string) (n : json) (y : Z)
    (m : Machine) :
  exists r tail,
    fetch_holidays w k c n y m =
      (Done tt,
       mkMachine (session m) r (out m ++ EvGet (holiday_request k c y) :: tail)) /\
    forallb not_request tail = true /\
    (fetch_failed (http w (holiday_request k c y)) = true ->
       existsb is_error tail = true /\ existsb is_table tail = false) /\
    (empty_holidays (http w (holiday_request k c y)) = true ->
       tail = [EvInfo (MsgNoHolidays n)]).
Proof.
  destruct m as [sess resp o0].
  unfold fetch_holidays, fetch_failed, empty_holidays, status_ok, holiday_request.
  script_unfold.
  destruct (http w _) as [d|r]; cbn -[show_server_message].
  { use_server_message. }
  destruct ((400 <=? status_code r) && (status_code r <? 600));
    cbn -[show_server_message].
  { use_server_message. }
  destruct (body r) as [[| | | |s|l|o]|]; cbn -[show_server_message];
    try close_fetch; try use_server_message.
  - destruct (str_contains "response" s); cbn; close_fetch.
  - destruct (existsb _ l); cbn; close_fetch.
  - destruct (o !! "response") as [[| | | |s|l|a]|] eqn:Ha; cbn; try close_fetch.
    + destruct (str_contains "holidays" s); cbn; close_fetch.
    + destruct (existsb _ l); cbn; close_fetch.
    + destruct (a !! "holidays") as [hs|] eqn:Hh; cbn; [|close_fetch].
      destruct (py_truthy hs) eqn:Ht; cbn;
        [destruct (holidays_frame hs) as [rows|]; cbn;
           [destruct (dataframe_accepts rows); cbn|]|];
        destruct hs as [| | | | |[|]|]; try discriminate; close_fetch.
Qed.

Lemma show_holidays_prompt (w : World) (k : string) (m : Machine) :
  has_country_code (session m) = false ->
  show_holidays w k m =
    (Done tt, mkMachine (session m) (response m) (out m ++ [EvInfo MsgClickPrompt])).
Proof.
  unfold has_country_code, show_holidays. script_unfold. intros H.
  destruct (session_get_country_code (session m)) as [c|]; [|reflexivity].
  rewrite H. reflexivity.
Qed.

Lemma show_holidays_unnamed (w : World) (k : string) (m : Machine) :
  has_country_code (session m) = true ->
  country_name (session m) = None ->
  show_holidays w k m = (Raise AttributeError, m).
Proof.
  unfold has_country_code, show_holidays. script_unfold. intros H Hn.
  destruct (session_get_country_code (session m)) as [c|]; [|discriminate].
  rewrite H, Hn. reflexivity.
Qed.

Lemma show_holidays_fetch (w : World) (k c : string) (n : json) (m : Machine) :
  session_get_country_code (session m) = Some c ->
  has_country_code (session m) = true ->
  country_name (session m) = Some n ->
  exists r tail,
    show_holidays w k m =
      (Done tt,
       mkMachine (session m) r
         (out m ++ EvSubheader n c (now_year w)
                :: EvGet (holiday_request k c (now_year w)) :: tail)) /\
    forallb not_request tail = true /\
    (fetch_failed (http w (holiday_request k c (now_year w))) = true ->
       existsb is_error tail = true /\ existsb is_table tail = false) /\
    (empty_holidays (http w (holiday_request k c (now_year w))) = true ->
       tail = [EvInfo (MsgNoHolidays n)]).
Proof.
  unfold has_country_code. intros Hc H Hn. rewrite Hc in H.
  destruct (fetch_holidays_run w k c n (now_year w)
              (mkMachine (session m) (response m)
                 (out m ++ [EvSubheader n c (now_year w)])))
    as (r & tail & Hrun & Htail).
  exists r, tail. split; [|exact Htail].
  unfold show_holidays. script_unfold. rewrite Hc, H, Hn.
  cbn in Hrun. rewrite <- app_assoc in Hrun. cbn in Hrun.
  rewrite <- Hrun. reflexivity.
Qed.

(** The two ways a click can end (lines 91-113), on the whole run. *)
Lemma run_click_resolved (w : World) (k : string) (p : LatLng) (s : SessionState)
    (code : string) (address : gmap string json) :
  secrets_getitem w "CALENDARIFIC_API_KEY" = inr k ->
  clicked_point w = Some p ->
  resolved_country (http w (geocode_request p)) = Some (code, address) ->
  exists r,
    run w s =
      (Rerun,
       mkMachine
         (with_country (Some (str_upper code))
            (default (JStr (str_upper code)) (address !! "country"))
            (with_click p (with_defaults s)))
         r (page_top s ++ [EvGet (geocode_request p)])).
Proof.
  intros Hk Hp Hr. rewrite (run_click _ _ _ _ Hk Hp).
  destruct (resolve_country_ok w p
              (mkMachine (with_click p (with_defaults s)) None (page_top s))
              code address Hr) as [r Hrun].
  exists (Some r). unfold bind. rewrite Hrun. reflexivity.
Qed.

Lemma run_click_unresolved (w : World) (k : string) (p : LatLng) (s : SessionState) :
  secrets_getitem w "CALENDARIFIC_API_KEY" = inr k ->
  clicked_point w = Some p ->
  resolved_country (http w (geocode_request p)) = None ->
  exists r alert,
    is_alert alert = true /\
    run w s =
      (Done tt,
       mkMachine (with_country None JNull (with_click p (with_defaults s))) r
         (page_top s ++ [EvGet (geocode_request p); alert; EvInfo MsgClickPrompt])).
Proof.
  intros Hk Hp Hr. rewrite (run_click _ _ _ _ Hk Hp).
  destruct (resolve_country_fail w p
              (mkMachine (with_click p (with_defaults s)) None (page_top s)) Hr)
    as (r & alert & Halert & Hrun).
  exists r, alert. split; [exact Halert|].
  unfold bind. rewrite Hrun. rewrite show_holidays_prompt by reflexivity.
  cbn. rewrite <- ?app_assoc. reflexivity.
Qed.

Lemma has_country_code_get (s : SessionState) :
  has_country_code s = true -> exists c, session_get_country_code s = Some c.
Proof.
  unfold has_country_code.
  destruct (session_get_country_code s) as [c|]; [eauto|discriminate].
Qed.

Lemma run_cases (w : World) (s : SessionState) : RunCase w s.
Proof.
  destruct (secrets_getitem w "CALENDARIFIC_API_KEY") as [e|k] eqn:Hk.
  { apply RunHalted; [unfold configured_key; rewrite Hk; reflexivity|].
    exact (run_no_key _ _ _ Hk). }
  assert (Hkey : configured_key w = Some k)
    by (unfold configured_key; rewrite Hk; reflexivity).
  destruct (clicked_point w) as [p|] eqn:Hp.
  - destruct (resolved_country (http w (geocode_request p)))
      as [[code address]|] eqn:Hr.
    + destruct (run_click_resolved w k p s code address Hk Hp Hr) as [r Hrun].
      exact (RunResolved w s k p code address r Hkey Hp Hr Hrun).
    + destruct (run_click_unresolved w k p s Hk Hp Hr)
        as (r & alert & Halert & Hrun).
      exact (RunUnresolved w s k p r alert Hkey Hp Hr Halert Hrun).
  - pose proof (run_no_click w k s Hk Hp) as Hrun.
    destruct (has_country_code s) eqn:Hc.
    + destruct (has_country_code_get s Hc) as [c Hget].
      destruct (country_name s) as [n|] eqn:Hn.
      * destruct (show_holidays_fetch w k c n
                    (mkMachine (with_defaults s) None (page_top s)) Hget Hc Hn)
          as (r & tail & Hshow & Ht1 & Ht2 & Ht3).
        rewrite Hshow in Hrun.
        exact (RunFetch w s k c n r tail Hkey Hp Hget Hc Hn Hrun Ht1 Ht2 Ht3).
      * rewrite (show_holidays_unnamed w k
                   (mkMachine (with_defaults s) None (page_top s)) Hc Hn) in Hrun.
        exact (RunUnnamed w s k Hkey Hp Hc Hn Hrun).
    + rewrite (show_holidays_prompt w k
                 (mkMachine (with_defaults s) None (page_top s)) Hc) in Hrun.
      exact (RunPrompt w s k Hkey Hp Hc Hrun).
Qed.

Lemma not_request_In (l : list Event) (r : Request) :
  forallb not_request l = true -> ~ In (EvGet r) l.
Proof.
  intros H Hin. rewrite forallb_forall in H.
  specialize (H _ Hin). discriminate.
Qed.

Ltac run_analysis w s :=
  let Hrun := fresh "Hrun" in
  destruct (run_cases w s)
    as [ Hkey Hrun
       | k' Hkey Hclick Hcode Hrun
       | k' c' n' r' tail Hkey Hclick Hget Hcode Hname Hrun Htail Hfail Hempty
       | k' Hkey Hclick Hcode Hname Hrun
       | k' p' code' address' r' Hkey Hclick Hres Hrun
       | k' p' r' alert Hkey Hclick Hres Halert Hrun ];
  unfold result_of, session_after, output_of in *;
  rewrite Hrun in *; cbn [fst snd session out] in *.

(** ** Start-up *)

(** C3: when [CALENDARIFIC_API_KEY] is not configured, the run is stopped by
    [st.stop()] with the two configuration errors as its whole output: no map
    or other element is rendered, no geocode or holiday request is sent, and
    the session is left as it was. *)
Theorem missing_api_key_halts (w : World) (s : SessionState) :
  configured_key w = None ->
  result_of w s = Stop /\
  output_of w s = [EvError MsgSecretMissing; EvError MsgSecretHint] /\
  existsb is_other_ui (output_of w s) = false /\
  existsb is_request (output_of w s) = false /\
  session_after w s = s.
Proof.
  intros Hnone. run_analysis w s; try congruence.
  repeat split; reflexivity.
Qed.

(** ** Clicks *)

(** C7: whatever the session held, a run that receives a click ends with
    [clicked_location] and [center] both equal to the clicked coordinate and
    [zoom] equal to 6, whether or not the geocoding then succeeds. *)
Theorem click_moves_map (w : World) (s : SessionState) (k : string) (p : LatLng) :
  configured_key w = Some k ->
  clicked_point w = Some p ->
  clicked_location (session_after w s) = Some (Some (lat p, lng p)) /\
  center (session_after w s) = Some (lat p, lng p) /\
  zoom (session_after w s) = Some 6.
Proof.
  intros Hk Hp. run_analysis w s; try congruence;
    replace p' with p in * by congruence; repeat split; reflexivity.
Qed.

(** C4: a click whose geocoding does not resolve to a country (transport
    failure, error status, unreadable body, no [address.country_code]) leaves
    [country_code] and [country_name] at [None], shows a warning or an error,
    and lets the run finish normally: [st.rerun()] is not called. *)
Theorem unresolved_click_clears_country (w : World) (s : SessionState)
    (k : string) (p : LatLng) :
  configured_key w = Some k ->
  clicked_point w = Some p ->
  resolved_country (http w (geocode_request p)) = None ->
  country_code (session_after w s) = Some None /\
  country_name (session_after w s) = Some JNull /\
  existsb is_alert (output_of w s) = true /\
  result_of w s = Done tt /\
  is_rerun (result_of w s) = false.
Proof.
  intros Hk Hp Hr. run_analysis w s; try congruence.
  replace p' with p in * by congruence.
  repeat split; try reflexivity.
  rewrite existsb_app. cbn. rewrite Halert. reflexivity.
Qed.

(** C8: every request a run sends to the reverse-geocoding service has the
    query parameters [lat], [lon] (the clicked point), [format=json] and
    [accept-language=en], and a [User-Agent] header that is not empty. *)
Theorem geocode_request_shape (w : World) (s : SessionState) (r : Request) :
  In (EvGet r) (output_of w s) ->
  url r = REVERSE_GEOCODING_URL ->
  exists p ua,
    clicked_point w = Some p /\
    params r = [("lat", PFloat (lat p)); ("lon", PFloat (lng p));
                ("format", PStr "json"); ("accept-language", PStr "en")] /\
    req_headers r = [("User-Agent", ua)] /\
    ua <> EmptyString.
Proof.
  intros Hin Hurl. run_analysis w s.
  - cbn in Hin. intuition discriminate.
  - apply in_app_or in Hin. cbn in Hin. intuition discriminate.
  - apply in_app_or in Hin. cbn in Hin.
    destruct Hin as [Hin|[Hin|[Hin|Hin]]].
    + intuition discriminate.
    + discriminate.
    + inversion Hin; subst. discriminate.
    + exfalso. exact (not_request_In _ _ Htail Hin).
  - cbn in Hin. intuition discriminate.
  - apply in_app_or in Hin. cbn in Hin.
    destruct Hin as [Hin|[Hin|[]]]; [intuition discriminate|].
    inversion Hin; subst.
    exists p', "Streamlit Holiday App (user@example.com)".
    repeat split; [assumption|discriminate].
  - apply in_app_or in Hin. cbn in Hin.
    destruct Hin as [Hin|[Hin|[Hin|[Hin|[]]]]]; try discriminate.
    + intuition discriminate.
    + inversion Hin; subst.
      exists p', "Streamlit Holiday App (user@example.com)".
      repeat split; [assumption|discriminate].
    + destruct alert; discriminate.
Qed.

(** ** The results section *)

Lemma not_request_no_fetch (l : list Event) :
  forallb not_request l = true -> List.filter is_holiday_get l = [].
Proof.
  induction l as [|e l IH]; cbn; [reflexivity|].
  intros H. apply andb_prop in H. destruct H as [He Hl].
  rewrite (IH Hl). destruct e; try discriminate; reflexivity.
Qed.

(** A holiday request in the output pins the run down: no click, a country in
    the session, and the request built from it. *)
Lemma holiday_request_run (w : World) (s : SessionState) (r : Request) :
  In (EvGet r) (output_of w s) ->
  url r = CALENDARIFIC_API_URL ->
  exists k c n resp tail,
    configured_key w = Some k /\
    clicked_point w = None /\
    session_get_country_code s = Some c /\
    has_country_code s = true /\
    country_name s = Some n /\
    r = holiday_request k c (now_year w) /\
    run w s =
      (Done tt,
       mkMachine (with_defaults s) resp
         (page_top s ++ EvSubheader n c (now_year w) :: EvGet r :: tail)) /\
    forallb not_request tail = true /\
    (fetch_failed (http w r) = true ->
       existsb is_error tail = true /\ existsb is_table tail = false) /\
    (empty_holidays (http w r) = true -> tail = [EvInfo (MsgNoHolidays n)]).
Proof.
  intros Hin Hurl.
  destruct (run_cases w s)
    as [ Hkey Hrun
       | k' Hkey Hclick Hcode Hrun
       | k' c' n' r' tail Hkey Hclick Hget Hcode Hname Hrun Htail Hfail Hempty
       | k' Hkey Hclick Hcode Hname Hrun
       | k' p' code address r' Hkey Hclick Hres Hrun
       | k' p' r' alert Hkey Hclick Hres Halert Hrun ];
    unfold output_of in Hin; rewrite Hrun in Hin; cbn [snd out] in Hin.
  - cbn in Hin. intuition discriminate.
  - apply in_app_or in Hin. cbn in Hin. intuition discriminate.
  - assert (Hr : r = holiday_request k' c' (now_year w)).
    { apply in_app_or in Hin. cbn in Hin.
      destruct Hin as [Hin|[Hin|[Hin|Hin]]].
      - intuition discriminate.
      - discriminate.
      - inversion Hin; reflexivity.
      - exfalso. exact (not_request_In _ _ Htail Hin). }
    subst r. exists k', c', n', r', tail.
    exact (conj Hkey (conj Hclick (conj Hget (conj Hcode (conj Hname
             (conj eq_refl (conj Hrun (conj Htail (conj Hfail Hempty))))))))).
  - cbn in Hin. intuition discriminate.
  - apply in_app_or in Hin. cbn in Hin.
    destruct Hin as [Hin|[Hin|[]]]; [intuition discriminate|].
    inversion Hin; subst. discriminate.
  - apply in_app_or in Hin. cbn in Hin.
    destruct Hin as [Hin|[Hin|[Hin|[Hin|[]]]]]; try discriminate.
    + intuition discriminate.
    + inversion Hin; subst. discriminate.
    + destruct alert; discriminate.
Qed.

(** C5: when the holiday service cannot be reached or answers with an error
    status, the run shows an error, renders no table, leaves [country_code]
    and [country_name] as they were (a country is still resolved) and
    finishes normally. *)
Theorem failed_fetch_keeps_country (w : World) (s : SessionState) (r : Request) :
  In (EvGet r) (output_of w s) ->
  url r = CALENDARIFIC_API_URL ->
  fetch_failed (http w r) = true ->
  country_code (session_after w s) = country_code s /\
  country_name (session_after w s) = country_name s /\
  has_country_code (session_after w s) = true /\
  existsb is_error (output_of w s) = true /\
  existsb is_table (output_of w s) = false /\
  result_of w s = Done tt.
Proof.
  intros Hin Hurl Hfailed.
  destruct (holiday_request_run w s r Hin Hurl)
    as (k & c & n & resp & tail & _ & _ & _ & Hcode & _ & _ & Hrun & _ & Hfail & _).
  destruct (Hfail Hfailed) as [Herr Htab].
  unfold session_after, output_of, result_of. rewrite Hrun. cbn [fst snd session out].
  repeat split; try reflexivity.
  - exact Hcode.
  - rewrite existsb_app. cbn. rewrite Herr. reflexivity.
  - rewrite existsb_app. cbn. exact Htab.
Qed.

(** C6: when the holiday service answers successfully with a well-formed,
    empty [holidays] list, the run shows the "no holidays" information box
    for the stored country name; no error or warning appears, no table is
    rendered, and the run finishes normally. *)
Theorem empty_holidays_is_information (w : World) (s : SessionState) (r : Request) :
  In (EvGet r) (output_of w s) ->
  url r = CALENDARIFIC_API_URL ->
  empty_holidays (http w r) = true ->
  exists n,
    country_name s = Some n /\
    In (EvInfo (MsgNoHolidays n)) (output_of w s) /\
    existsb is_alert (output_of w s) = false /\
    existsb is_table (output_of w s) = false /\
    result_of w s = Done tt.
Proof.
  intros Hin Hurl Hnone.
  destruct (holiday_request_run w s r Hin Hurl)
    as (k & c & n & resp & tail & _ & _ & _ & _ & Hname & _ & Hrun & _ & _ & Hempty).
  rewrite (Hempty Hnone) in Hrun.
  exists n. unfold session_after, output_of, result_of.
  rewrite Hrun. cbn [fst snd session out].
  repeat split; try assumption; try reflexivity.
  apply in_or_app. right. cbn. auto.
Qed.

(** ** The country across a session *)

Lemma not_request_no_geocode (l : list Event) :
  forallb not_request l = true -> List.filter is_geocode_get l = [].
Proof.
  induction l as [|e l IH]; cbn; [reflexivity|].
  intros H. apply andb_prop in H. destruct H as [He Hl].
  rewrite (IH Hl). destruct e; try discriminate; reflexivity.
Qed.

(** What one run does to the country fields, by whether it geocoded. *)
Lemma geocode_step (w : World) (s : SessionState) :
  match geocode_sent (output_of w s) with
  | Some r =>
      exists p, clicked_point w = Some p /\ r = geocode_request p /\
        country_matches (session_after w s) (Some (resolved_country (http w r)))
  | None =>
      country_code (session_after w s) = country_code s /\
      country_name (session_after w s) = country_name s
  end.
Proof.
  unfold geocode_sent. run_analysis w s.
  - cbn. auto.
  - rewrite List.filter_app. cbn. auto.
  - rewrite List.filter_app. cbn. rewrite (not_request_no_geocode _ Htail).
    cbn. auto.
  - cbn. auto.
  - rewrite List.filter_app. cbn. exists p'. rewrite Hres. cbn. auto.
  - rewrite List.filter_app. cbn. exists p'. rewrite Hres. cbn. auto.
Qed.

Lemma country_matches_step (w : World) (s : SessionState)
    (g : option (option (string * gmap string json))) :
  country_matches s g ->
  country_matches (session_after w s)
    (match geocode_sent (output_of w s) with
     | Some r => Some (resolved_country (http w r))
     | None => g
     end).
Proof.
  intros Hinv. pose proof (geocode_step w s) as Hstep.
  destruct (geocode_sent (output_of w s)) as [r|].
  - destruct Hstep as (p & _ & _ & H). exact H.
  - destruct Hstep as [Hc Hn]. unfold country_matches in *.
    rewrite Hc, Hn. exact Hinv.
Qed.

Lemma country_matches_session (ws : list World) (s : SessionState)
    (g : option (option (string * gmap string json))) :
  country_matches s g ->
  country_matches (run_session ws s) (last_geocode ws s g).
Proof.
  revert s g. induction ws as [|w rest IH]; intros s g Hinv; cbn.
  - exact Hinv.
  - apply IH. apply country_matches_step. exact Hinv.
Qed.

Lemma country_matches_new (ws : list World) :
  country_matches (run_session ws new_session) (last_geocode ws new_session None).
Proof. apply country_matches_session. split; reflexivity. Qed.


(** C1: after every run of a session that started fresh, [country_code] holds
    a string exactly when the most recent geocode call of the session
    succeeded with a country code in the response address.  Run by run: a
    click sends one geocode request, and the run stores the upper-cased code
    when that call resolves and [None] in every other case. *)
Theorem country_code_tracks_geocode :
  (forall ws : list World,
     country_code_set (run_session ws new_session) = true <->
     geocode_succeeded (last_geocode ws new_session None) = true) /\
  (forall (w : World) (s : SessionState) (k : string) (p : LatLng),
     configured_key w = Some k ->
     clicked_point w = Some p ->
     geocode_sent (output_of w s) = Some (geocode_request p) /\
     country_code (session_after w s) =
       match resolved_country (http w (geocode_request p)) with
       | Some (code, _) => Some (Some (str_upper code))
       | None => Some None
       end).
Proof.
  split.
  - intros ws. pose proof (country_matches_new ws) as Hinv.
    unfold country_matches, country_code_set, geocode_succeeded in *.
    destruct (last_geocode ws new_session None) as [[[code address]|]|];
      destruct Hinv as [Hc _]; rewrite Hc; split; congruence.
  - intros w s k p Hk Hp. pose proof (geocode_step w s) as Hstep.
    destruct (geocode_sent (output_of w s)) as [r|] eqn:Hsent.
    + destruct Hstep as (p0 & Hp0 & Hr & Hinv).
      replace p0 with p in * by congruence. subst r. split; [reflexivity|].
      unfold country_matches in Hinv.
      destruct (resolved_country (http w (geocode_request p)))
        as [[code address]|]; destruct Hinv as [Hc _]; exact Hc.
    + exfalso. clear Hstep. revert Hsent.
      unfold geocode_sent. run_analysis w s; try congruence;
        rewrite List.filter_app; cbn; discriminate.
Qed.

(** C9: the code stored by a resolving click is [upper()] of the code in the
    response, so in any session that started fresh a string held by
    [country_code] is the upper-casing of the code the most recent geocode
    call returned; for an idempotent [upper()] it is a string that [upper()]
    leaves unchanged, an upper-case string. *)
Theorem stored_country_code_is_upper_case :
  (forall x : string, str_upper (str_upper x) = str_upper x) ->
  forall (ws : list World) (c : string),
    country_code (run_session ws new_session) = Some (Some c) ->
    (exists code address,
       last_geocode ws new_session None = Some (Some (code, address)) /\
       c = str_upper code) /\
    str_upper c = c.
Proof.
  intros Hidem ws c Hc. pose proof (country_matches_new ws) as Hinv.
  unfold country_matches in Hinv.
  destruct (last_geocode ws new_session None) as [[[code address]|]|];
    destruct Hinv as [Hcode _]; rewrite Hcode in Hc; try discriminate.
  inversion Hc; subst. split; [eauto|apply Hidem].
Qed.

(** C10 (as the code has it): a resolving click stores, together with the
    upper-cased code, the value of [address.country] when the response has
    that key, and the upper-cased code itself when it has not.  So in any
    session that started fresh, whenever [country_code] holds a string,
    [country_name] was assigned with it, and it is not [None] unless the
    response gave [address.country] as JSON null. *)
Theorem country_name_stored_with_code :
  (forall (w : World) (s : SessionState) (k : string) (p : LatLng)
          (code : string) (address : gmap string json),
     configured_key w = Some k ->
     clicked_point w = Some p ->
     resolved_country (http w (geocode_request p)) = Some (code, address) ->
     country_code (session_after w s) = Some (Some (str_upper code)) /\
     country_name (session_after w s) =
       Some (default (JStr (str_upper code)) (address !! "country")) /\
     (address !! "country" = None ->
        country_name (session_after w s) = Some (JStr (str_upper code)))) /\
  (forall (ws : list World) (c : string),
     country_code (run_session ws new_session) = Some (Some c) ->
     exists code address,
       last_geocode ws new_session None = Some (Some (code, address)) /\
       country_name (run_session ws new_session) =
         Some (default (JStr c) (address !! "country")) /\
       (address !! "country" <> Some JNull ->
          exists v, country_name (run_session ws new_session) = Some v /\
                    v <> JNull)).
Proof.
  split.
  - intros w s k p code address Hk Hp Hr.
    assert (Hboth : country_code (session_after w s) = Some (Some (str_upper code)) /\
                    country_name (session_after w s) =
                      Some (default (JStr (str_upper code)) (address !! "country"))).
    { run_analysis w s; try congruence.
      replace p' with p in * by congruence.
      rewrite Hr in Hres. inversion Hres; subst. split; reflexivity. }
    destruct Hboth as [Hc Hn]. repeat split; try assumption.
    intros Hnone. rewrite Hn, Hnone. reflexivity.
  - intros ws c Hc. pose proof (country_matches_new ws) as Hinv.
    unfold country_matches in Hinv.
    destruct (last_geocode ws new_session None) as [[[code address]|]|];
      destruct Hinv as [Hcode Hname]; rewrite Hcode in Hc; try discriminate.
    inversion Hc; subst. exists code, address.
    split; [reflexivity|]. split; [exact Hname|].
    intros Hnull. rewrite Hname.
    destruct (address !! "country") as [v|]; cbn.
    + exists v. split; [reflexivity|]. congruence.
    + exists (JStr (str_upper code)). split; [reflexivity|discriminate].
Qed.

(** ** The results section, case by case *)

Lemma configured_key_getitem (w : World) (k : string) :
  configured_key w = Some k ->
  secrets_getitem w "CALENDARIFIC_API_KEY" = inr k.
Proof.
  unfold configured_key.
  destruct (secrets_getitem w "CALENDARIFIC_API_KEY"); congruence.
Qed.

Lemma run_fetching (w : World) (s : SessionState) (k c : string) (n : json) :
  fetching w s k c n ->
  run w s =
    fetch_holidays w k c n (now_year w)
      (mkMachine (with_defaults s) None
         (page_top s ++ [EvSubheader n c (now_year w)])).
Proof.
  intros (Hk & Hp & Hget & Hcode & Hn).
  rewrite (run_no_click w k s (configured_key_getitem _ _ Hk) Hp).
  unfold has_country_code in Hcode. rewrite Hget in Hcode.
  unfold show_holidays. script_unfold. cbn [session].
  change (session_get_country_code (with_defaults s))
    with (session_get_country_code s).
  rewrite Hget, Hcode. cbn. rewrite Hn. reflexivity.
Qed.

(** Unfolds the reading functions in the goal and splits on the answer of the
    request and on its status. *)
Ltac open_answer :=
  unfold answered_holidays, lacks_holidays, scalar_body, server_error,
    lacks_country, mistyped_country, request_error, status_ok,
    holiday_request, geocode_request;
  match goal with
  | |- context [http ?w ?r] =>
      let d := fresh "d" in
      let resp := fresh "resp" in
      destruct (http w r) as [d|resp]
  end;
  cbn -[show_server_message show_holidays];
  [ | match goal with
      | |- context [(400 <=? status_code ?r) && (status_code ?r <? 600)] =>
          destruct ((400 <=? status_code r) && (status_code r <? 600))
      end ];
  cbn -[show_server_message show_holidays]; try discriminate.

Ltac fetch_page :=
  unfold results_top; rewrite <- ?app_assoc; reflexivity.

(** X1: a 2xx answer whose [response.holidays] is falsy in Python's sense
    (the empty list, but also null, an empty object, an empty string, zero or
    false) shows the "no holidays" information box and nothing else. *)
Theorem falsy_holidays_are_information (w : World) (s : SessionState)
    (k c : string) (n hs : json) :
  fetching w s k c n ->
  answered_holidays (http w (holiday_request k c (now_year w))) = Some hs ->
  py_truthy hs = false ->
  output_of w s = (results_top w s k c n ++ [EvInfo (MsgNoHolidays n)])%list /\
  result_of w s = Done tt.
Proof.
  intros Hf. unfold output_of, result_of. rewrite (run_fetching _ _ _ _ _ Hf).
  unfold fetch_holidays. script_unfold. open_answer.
  destruct (body resp) as [[| | | | | |o]|]; cbn; try discriminate.
  destruct (o !! "response") as [[| | | | | |inner]|]; cbn; try discriminate.
  intros Hhs Hfalse. rewrite Hhs. cbn. rewrite Hfalse. cbn.
  split; [fetch_page|reflexivity].
Qed.

(** X2: a 2xx answer whose [response.holidays] is truthy goes to the frame
    construction and then to [st.dataframe], both inside the [try]: the run
    shows the table when the frame is built and rendered, and the "unknown
    error" box, with no table, when building it raises or when rendering it
    raises. *)
Theorem truthy_holidays_are_tabulated (w : World) (s : SessionState)
    (k c : string) (n hs : json) :
  fetching w s k c n ->
  answered_holidays (http w (holiday_request k c (now_year w))) = Some hs ->
  py_truthy hs = true ->
  output_of w s =
    (results_top w s k c n ++
     [match holidays_frame hs with
      | Some rows =>
          if dataframe_accepts rows then EvDataframe rows
          else EvError (MsgHolidayUnknownError RenderError)
      | None => EvError (MsgHolidayUnknownError FrameError)
      end])%list /\
  result_of w s = Done tt.
Proof.
  intros Hf. unfold output_of, result_of. rewrite (run_fetching _ _ _ _ _ Hf).
  unfold fetch_holidays. script_unfold. open_answer.
  destruct (body resp) as [[| | | | | |o]|]; cbn; try discriminate.
  destruct (o !! "response") as [[| | | | | |inner]|]; cbn; try discriminate.
  intros Hhs Htrue. rewrite Hhs. cbn. rewrite Htrue.
  destruct (holidays_frame hs) as [rows|]; cbn;
    [destruct (dataframe_accepts rows); cbn|];
    (split; [fetch_page|reflexivity]).
Qed.

(** X3: a 2xx answer whose body is an object without [response.holidays]
    shows the "bad response format" error followed by a dump of the whole
    body; the run finishes normally and the session keeps its country. *)
Theorem missing_holidays_field_is_dumped (w : World) (s : SessionState)
    (k c : string) (n data : json) :
  fetching w s k c n ->
  lacks_holidays (http w (holiday_request k c (now_year w))) = Some data ->
  output_of w s =
    (results_top w s k c n ++ [EvError MsgBadResponseFormat; EvJson data])%list /\
  result_of w s = Done tt /\
  session_after w s = with_defaults s.
Proof.
  intros Hf. unfold output_of, result_of, session_after.
  rewrite (run_fetching _ _ _ _ _ Hf).
  unfold fetch_holidays. script_unfold. open_answer.
  destruct (body resp) as [[| | | | | |o]|]; cbn; try discriminate.
  destruct (o !! "response") as [[| | | | | |inner]|]; cbn; try discriminate.
  - destruct (inner !! "holidays"); cbn; try discriminate.
    intros H; inversion H; subst.
    split; [fetch_page|split; reflexivity].
  - intros H; inversion H; subst.
    split; [fetch_page|split; reflexivity].
Qed.

(** X4: a 2xx answer whose body is JSON null, a boolean or a number makes
    the membership test of line 137 raise [TypeError]: the run shows the
    "unknown error" box, not the "bad response format" one, and dumps
    nothing. *)
Theorem scalar_body_is_unknown_error (w : World) (s : SessionState)
    (k c : string) (n : json) :
  fetching w s k c n ->
  scalar_body (http w (holiday_request k c (now_year w))) = true ->
  output_of w s =
    (results_top w s k c n ++ [EvError (MsgHolidayUnknownError TypeError)])%list /\
  result_of w s = Done tt.
Proof.
  intros Hf. unfold output_of, result_of. rewrite (run_fetching _ _ _ _ _ Hf).
  unfold fetch_holidays. script_unfold. open_answer.
  destruct (body resp) as [[| | | | | |o]|]; cbn; try discriminate;
    intros _; (split; [fetch_page|reflexivity]).
Qed.

(** X5: when the holiday service cannot be reached, the run shows the request
    error and nothing more: [response] was never bound in this run, so the
    look-up of a server message (lines 163-168) raises [NameError], which is
    swallowed. *)
Theorem unreachable_service_single_error (w : World) (s : SessionState)
    (k c : string) (n : json) (detail : string) :
  fetching w s k c n ->
  http w (holiday_request k c (now_year w)) = Unreachable detail ->
  output_of w s =
    (results_top w s k c n ++
     [EvError (MsgHolidayRequestError (ConnectionError detail))])%list /\
  result_of w s = Done tt.
Proof.
  intros Hf Hh. unfold output_of, result_of. rewrite (run_fetching _ _ _ _ _ Hf).
  unfold fetch_holidays, show_server_message. script_unfold.
  unfold holiday_request in Hh. rewrite Hh. cbn.
  split; [fetch_page|reflexivity].
Qed.

(** X6: when the holiday service answers with an error status, the run shows
    the request error with that status, followed by the server's own message
    exactly when the body is an object carrying [response.error]; any other
    body (not JSON, another shape) adds nothing. *)
Theorem error_status_shows_server_message (w : World) (s : SessionState)
    (k c : string) (n : json) (resp : Response) :
  fetching w s k c n ->
  http w (holiday_request k c (now_year w)) = Answered resp ->
  status_ok resp = false ->
  output_of w s =
    (results_top w s k c n ++
     EvError (MsgHolidayRequestError (HTTPError (status_code resp))) ::
     match server_error (Answered resp) with
     | Some (_, detail) => [EvError (MsgApiServerMessage detail)]
     | None => []
     end)%list /\
  result_of w s = Done tt.
Proof.
  intros Hf Hh Hbad. unfold output_of, result_of.
  rewrite (run_fetching _ _ _ _ _ Hf).
  unfold fetch_holidays, show_server_message, server_error. script_unfold.
  unfold holiday_request in Hh. rewrite Hh. rewrite Hbad.
  unfold status_ok in Hbad. apply negb_false_iff in Hbad.
  cbn. rewrite Hbad. cbn.
  destruct (body resp) as [[| | | |str|l|o]|]; cbn;
    try (split; [fetch_page|reflexivity]).
  - destruct (str_contains "response" str); cbn; (split; [fetch_page|reflexivity]).
  - destruct (existsb _ l); cbn; (split; [fetch_page|reflexivity]).
  - destruct (o !! "response") as [[| | | |str|l|inner]|]; cbn;
      try (split; [fetch_page|reflexivity]).
    + destruct (str_contains "error" str); cbn; (split; [fetch_page|reflexivity]).
    + destruct (existsb _ l); cbn; (split; [fetch_page|reflexivity]).
    + destruct (inner !! "error"); cbn; (split; [fetch_page|reflexivity]).
Qed.

(** ** The geocoding, case by case *)

(** The page of a run whose click did not resolve, around the alert. *)
Ltac click_page :=
  rewrite show_holidays_prompt by reflexivity;
  cbn; rewrite <- ?app_assoc; split; reflexivity.

Ltac open_click Hk Hp :=
  unfold output_of, result_of;
  rewrite (run_click _ _ _ _ (configured_key_getitem _ _ Hk) Hp);
  unfold resolve_country; script_unfold; open_answer.

(** X7: a 2xx geocoder answer whose body is an object without
    [address.country_code] is the "no match" of lines 101-104: a warning (not
    an error), then the prompt of the results section. *)
Theorem unmatched_location_warns (w : World) (s : SessionState) (k : string)
    (p : LatLng) :
  configured_key w = Some k ->
  clicked_point w = Some p ->
  lacks_country (http w (geocode_request p)) = true ->
  output_of w s =
    (page_top s ++
     [EvGet (geocode_request p); EvWarning MsgCountryNotFound;
      EvInfo MsgClickPrompt])%list /\
  result_of w s = Done tt.
Proof.
  intros Hk Hp. open_click Hk Hp.
  destruct (body resp) as [[| | | | | |o]|];
    cbn -[show_holidays]; try discriminate.
  destruct (o !! "address") as [[| | | | | |a]|];
    cbn -[show_holidays]; try discriminate.
  - destruct (a !! "country_code"); cbn -[show_holidays]; try discriminate.
    intros _. click_page.
  - intros _. click_page.
Qed.

(** X8: a 2xx geocoder answer whose [address.country_code] is present but
    not a string passes the test of line 91 and fails at [.upper()]: the run
    shows the "unknown error" box with [AttributeError], not the warning. *)
Theorem mistyped_country_code_is_unknown_error (w : World) (s : SessionState)
    (k : string) (p : LatLng) :
  configured_key w = Some k ->
  clicked_point w = Some p ->
  mistyped_country (http w (geocode_request p)) = true ->
  output_of w s =
    (page_top s ++
     [EvGet (geocode_request p);
      EvError (MsgGeocodeUnknownError AttributeError);
      EvInfo MsgClickPrompt])%list /\
  result_of w s = Done tt.
Proof.
  intros Hk Hp. open_click Hk Hp.
  destruct (body resp) as [[| | | | | |o]|];
    cbn -[show_holidays]; try discriminate.
  destruct (o !! "address") as [[| | | | | |a]|];
    cbn -[show_holidays]; try discriminate.
  destruct (a !! "country_code") as [[| | | | | |]|];
    cbn -[show_holidays]; try discriminate; intros _; click_page.
Qed.

(** X9: when the geocoder cannot be reached or answers with an error
    status, the run shows the "request error" box carrying that exception
    (the transport failure, or the [HTTPError] with the status). *)
Theorem geocoder_failure_is_request_error (w : World) (s : SessionState)
    (k : string) (p : LatLng) (e : Exn) :
  configured_key w = Some k ->
  clicked_point w = Some p ->
  request_error (http w (geocode_request p)) = Some e ->
  output_of w s =
    (page_top s ++
     [EvGet (geocode_request p); EvError (MsgGeocodeRequestError e);
      EvInfo MsgClickPrompt])%list /\
  result_of w s = Done tt.
Proof.
  intros Hk Hp. open_click Hk Hp; intros H; inversion H; subst; click_page.
Qed.

(** ** How a run ends *)

(** X10: [st.rerun()] is reached exactly by a click that resolves: the key is
    configured, the widget reports a click, and the geocoder answers with a
    string [address.country_code].  No other run restarts. *)
Theorem rerun_exactly_on_resolved_click (w : World) (s : SessionState) :
  is_rerun (result_of w s) =
    match configured_key w, clicked_point w with
    | Some _, Some p =>
        if resolved_country (http w (geocode_request p)) is Some _
        then true else false
    | _, _ => false
    end.
Proof.
  run_analysis w s; rewrite Hkey; try rewrite Hclick; try rewrite Hres;
    reflexivity.
Qed.

(** X11: a run is stopped by [st.stop()] exactly when the API key is not
    configured. *)
Theorem stop_exactly_without_key (w : World) (s : SessionState) :
  result_of w s = Stop <-> configured_key w = None.
Proof.
  run_analysis w s; rewrite Hkey; split; congruence.
Qed.

(** X12: a run sends at most one HTTP request: the geocode request exactly
    when the key is configured and a click is reported, and a holiday request
    only in a run without a click. *)
Theorem at_most_one_request (w : World) (s : SessionState) :
  (request_count (output_of w s) <= 1)%nat /\
  geocode_fetches (output_of w s) =
    match configured_key w, clicked_point w with
    | Some _, Some _ => 1%nat
    | _, _ => 0%nat
    end /\
  (holiday_fetches (output_of w s) = 1%nat -> clicked_point w = None).
Proof.
  assert (Hnone : forall l, forallb not_request l = true ->
                    List.filter is_request l = []).
  { induction l as [|e l IH]; cbn; [reflexivity|].
    intros H. apply andb_prop in H. destruct H as [He Hl].
    rewrite (IH Hl). destruct e; try discriminate; reflexivity. }
  unfold request_count, geocode_fetches, holiday_fetches.
  run_analysis w s; rewrite Hkey; try rewrite Hclick;
    rewrite ?List.filter_app; cbn;
    rewrite ?(Hnone _ Htail), ?(not_request_no_geocode _ Htail),
      ?(not_request_no_fetch _ Htail); cbn;
    try (destruct alert; try discriminate; cbn);
    repeat split; try lia; try discriminate; auto.
Qed.

(** X13: in a session that started fresh no run ends in an uncaught
    exception: every run finishes, stops on the missing key, or restarts. *)
Theorem no_uncaught_exception (ws : list World) (w : World) (e : Exn) :
  result_of w (run_session ws new_session) <> Raise e.
Proof.
  pose proof (country_matches_new ws) as Hinv.
  remember (run_session ws new_session) as s eqn:Hs. clear Hs.
  run_analysis w s; try discriminate.
  exfalso. unfold country_matches in Hinv.
  unfold has_country_code, session_get_country_code in Hcode.
  destruct (last_geocode ws new_session None) as [[[code address]|]|];
    destruct Hinv as [Hc Hn].
  - rewrite Hn in Hname. discriminate.
  - rewrite Hc in Hcode. discriminate.
  - rewrite Hc in Hcode. discriminate.
Qed.

(** ** Clicks and the map *)

(** X14: a click supersedes whatever was resolved before: the country fields
    after a run with a click depend on that run's geocoding alone, not on the
    session it started from. *)
Theorem click_supersedes_country (w : World) (s s' : SessionState)
    (k : string) (p : LatLng) :
  configured_key w = Some k ->
  clicked_point w = Some p ->
  country_code (session_after w s) = country_code (session_after w s') /\
  country_name (session_after w s) = country_name (session_after w s').
Proof.
  intros Hk Hp.
  destruct (resolved_country (http w (geocode_request p)))
    as [[code address]|] eqn:Hr.
  - destruct (run_click_resolved w k p s code address
                (configured_key_getitem _ _ Hk) Hp Hr) as [r1 H1].
    destruct (run_click_resolved w k p s' code address
                (configured_key_getitem _ _ Hk) Hp Hr) as [r2 H2].
    unfold session_after. rewrite H1, H2. split; reflexivity.
  - destruct (run_click_unresolved w k p s
                (configured_key_getitem _ _ Hk) Hp Hr) as (r1 & a1 & _ & H1).
    destruct (run_click_unresolved w k p s'
                (configured_key_getitem _ _ Hk) Hp Hr) as (r2 & a2 & _ & H2).
    unfold session_after. rewrite H1, H2. split; reflexivity.
Qed.

Lemma with_defaults_idempotent (s : SessionState) :
  with_defaults (with_defaults s) = with_defaults s.
Proof. destruct s as [[] [] [] cc cn]; reflexivity. Qed.

Lemma session_after_no_click (w : World) (s : SessionState) (k : string) :
  configured_key w = Some k ->
  clicked_point w = None ->
  session_after w s = with_defaults s.
Proof.
  intros Hk Hp. run_analysis w s; try congruence; reflexivity.
Qed.

(** X15: a run without a click changes the session only by filling in the
    three defaults of lines 28-33 (existing values are kept), whatever the
    holiday service does; so once a session has been through such a run,
    further runs without a click leave it as it is. *)
Theorem click_free_run_settles (w w' : World) (s : SessionState) (k k' : string) :
  configured_key w = Some k ->
  clicked_point w = None ->
  configured_key w' = Some k' ->
  clicked_point w' = None ->
  session_after w s = with_defaults s /\
  country_code (session_after w s) = country_code s /\
  country_name (session_after w s) = country_name s /\
  session_after w' (session_after w s) = session_after w s.
Proof.
  intros Hk Hp Hk' Hp'.
  rewrite (session_after_no_click w' _ k' Hk' Hp').
  rewrite (session_after_no_click w s k Hk Hp).
  rewrite with_defaults_idempotent. repeat split; reflexivity.
Qed.

Lemma map_consistent_step (w : World) (s : SessionState) :
  map_consistent s -> map_consistent (session_after w s).
Proof.
  assert (Hdef : map_consistent s -> map_consistent (with_defaults s)).
  { unfold map_consistent. destruct s as [c z [[cl|]|] cc cn]; cbn.
    - intros [-> ->]. split; reflexivity.
    - intros [-> ->]. split; reflexivity.
    - intros [-> ->]. split; reflexivity. }
  intros H. run_analysis w s; try exact H; try exact (Hdef H);
    unfold map_consistent; cbn; split; reflexivity.
Qed.

(** X16: in a session that started fresh the three fields the map is drawn
    from always agree: either none is assigned yet, or there has been no click
    and the map sits at the defaults (Seoul, zoom 4), or [center] is the
    clicked location and [zoom] is 6. *)
Theorem map_fields_agree (ws : list World) :
  map_consistent (run_session ws new_session).
Proof.
  assert (H : forall s, map_consistent s -> map_consistent (run_session ws s)).
  { induction ws as [|w rest IH]; intros s Hs; cbn; [exact Hs|].
    apply IH. apply map_consistent_step. exact Hs. }
  apply H. split; reflexivity.
Qed.

(** X17: the map of a run is drawn from the session as the run found it, so
    the run that receives a click still shows the old view; the run after it
    opens with the map centred on the clicked point, at zoom 6, with the
    marker on that point. *)
Theorem marker_appears_in_next_run (w w2 : World) (s : SessionState)
    (k k2 : string) (p : LatLng) :
  configured_key w = Some k ->
  clicked_point w = Some p ->
  configured_key w2 = Some k2 ->
  (exists rest, output_of w s = (page_top s ++ rest)%list) /\
  (exists rest,
     output_of w2 (session_after w s) =
       ([EvPageConfig; EvTitle; EvMarkdown;
         EvMap (lat p, lng p) 6 (Some (lat p, lng p))] ++ rest)%list).
Proof.
  intros Hk Hp Hk2.
  assert (Htop : forall w0 s0 k0, configured_key w0 = Some k0 ->
            exists rest, output_of w0 s0 = (page_top s0 ++ rest)%list).
  { intros w0 s0 k0 H0. run_analysis w0 s0; try congruence; eauto. }
  split; [exact (Htop w s k Hk)|].
  destruct (Htop w2 (session_after w s) k2 Hk2) as [rest Hrest].
  exists rest. rewrite Hrest. f_equal.
  run_analysis w s; try congruence;
    replace p' with p in * by congruence; reflexivity.
Qed.

(** X18: the two phases of a resolving click: the run that receives it sends
    the geocode request and restarts without rendering any result; a
    following run without a click then shows the header for the stored
    country and sends the holiday request for the upper-cased code and the
    current year. *)
Theorem resolved_click_then_fetch (w w2 : World) (s : SessionState)
    (k k2 code : string) (address : gmap string json) (p : LatLng) :
  configured_key w = Some k ->
  clicked_point w = Some p ->
  resolved_country (http w (geocode_request p)) = Some (code, address) ->
  String.eqb (str_upper code) EmptyString = false ->
  configured_key w2 = Some k2 ->
  clicked_point w2 = None ->
  output_of w s = (page_top s ++ [EvGet (geocode_request p)])%list /\
  result_of w s = Rerun /\
  exists tail,
    output_of w2 (session_after w s) =
      (page_top (session_after w s) ++
       EvSubheader (default (JStr (str_upper code)) (address !! "country"))
         (str_upper code) (now_year w2)
       :: EvGet (holiday_request k2 (str_upper code) (now_year w2)) :: tail)%list.
Proof.
  intros Hk Hp Hr Hne Hk2 Hp2.
  destruct (run_click_resolved w k p s code address
              (configured_key_getitem _ _ Hk) Hp Hr) as [r1 H1].
  unfold output_of at 1. unfold result_of. unfold session_after.
  rewrite H1. cbn [fst snd session out].
  split; [reflexivity|]. split; [reflexivity|].
  set (s1 := with_country _ _ _).
  destruct (show_holidays_fetch w2 k2 (str_upper code)
              (default (JStr (str_upper code)) (address !! "country"))
              (mkMachine (with_defaults s1) None (page_top s1)))
    as (r2 & tail & Hshow & _).
  - reflexivity.
  - unfold has_country_code. cbn. rewrite Hne. reflexivity.
  - reflexivity.
  - exists tail. unfold output_of.
    rewrite (run_no_click w2 k2 s1 (configured_key_getitem _ _ Hk2) Hp2).
    rewrite Hshow. reflexivity.
Qed.

End App.

(** ** The model at work *)

Lemma ascii_upper_char_idempotent (c : ascii) :
  ascii_upper_char (ascii_upper_char c) = ascii_upper_char c.
Proof.
  destruct c as [[] [] [] [] [] [] [] []]; reflexivity.
Qed.

Lemma ascii_upper_idempotent (x : string) :
  ascii_upper (ascii_upper x) = ascii_upper x.
Proof.
  induction x as [|c rest IH]; cbn; [reflexivity|].
  rewrite ascii_upper_char_idempotent, IH. reflexivity.
Qed.

(** Scenario A, first run: the click on Seoul resolves, the run restarts. *)
Example scenario_A_click :
  run ascii_upper records_frame text_rows
      (world (Some demo_secrets) (Some seoul) korea no_holidays) new_session =
    (Rerun,
     mkMachine
       (mkSession (Some (lat seoul, lng seoul)) (Some 6)
          (Some (Some (lat seoul, lng seoul)))
          (Some (Some "KR")) (Some (JStr "South Korea")))
       (Some (mkResponse 200 (Some (obj [("address",
          obj [("country", JStr "South Korea"); ("country_code", JStr "kr")])]))))
       (page_top new_session ++ [EvGet (geocode_request seoul)])).
Proof. vm_compute. reflexivity. Qed.

(** Scenario B: a click in mid-ocean; the warning, no country, no fetch. *)
Example scenario_B_ocean :
  let w := world (Some demo_secrets) (Some mid_ocean) nowhere no_holidays in
  result_of ascii_upper records_frame text_rows w new_session = Done tt /\
  country_code (session_after ascii_upper records_frame text_rows w new_session) = Some None /\
  output_of ascii_upper records_frame text_rows w new_session =
    [EvPageConfig; EvTitle; EvMarkdown;
     EvMap (37.5665%float, 126.9780%float) 4 None;
     EvGet (geocode_request mid_ocean);
     EvWarning MsgCountryNotFound; EvInfo MsgClickPrompt].
Proof. vm_compute. repeat split; reflexivity. Qed.

(** Scenario A, the restarted run: no click is reported, the holidays are
    fetched and the table is rendered. *)
Example scenario_A_table :
  let w := world (Some demo_secrets) None korea new_year in
  result_of ascii_upper records_frame text_rows w korea_session = Done tt /\
  output_of ascii_upper records_frame text_rows w korea_session =
    [EvPageConfig; EvTitle; EvMarkdown;
     EvMap (37.5665%float, 126.9780%float) 6
       (Some (37.5665%float, 126.9780%float));
     EvSubheader (JStr "South Korea") "KR" 2026;
     EvGet (holiday_request "demo-key" "KR" 2026);
     EvDataframe [(JStr "2026-01-01", JStr "New Year's Day",
                   JStr "First day of the year")]].
Proof. vm_compute. split; reflexivity. Qed.

(** Scenario C: the holiday service answers 401; an inline error, no table,
    the session untouched. *)
Example scenario_C_unauthorized :
  let w := world (Some demo_secrets) None korea unauthorized in
  result_of ascii_upper records_frame text_rows w korea_session = Done tt /\
  session_after ascii_upper records_frame text_rows w korea_session = korea_session /\
  output_of ascii_upper records_frame text_rows w korea_session =
    [EvPageConfig; EvTitle; EvMarkdown;
     EvMap (37.5665%float, 126.9780%float) 6
       (Some (37.5665%float, 126.9780%float));
     EvSubheader (JStr "South Korea") "KR" 2026;
     EvGet (holiday_request "demo-key" "KR" 2026);
     EvError (MsgHolidayRequestError (HTTPError 401))].
Proof. vm_compute. repeat split; reflexivity. Qed.

(** Scenario D: no API key; the run stops on the configuration errors. *)
Example scenario_D_no_key :
  run ascii_upper records_frame text_rows
      (world None (Some seoul) korea new_year) new_session =
    (Stop, mkMachine new_session None
             [EvError MsgSecretMissing; EvError MsgSecretHint]).
Proof. vm_compute. reflexivity. Qed.

(** No caching: two runs in a row with the same country and year each send
    the holiday request. *)
Example refetch_on_every_run :
  let w := world (Some demo_secrets) None korea new_year in
  let s1 := session_after ascii_upper records_frame text_rows w korea_session in
  holiday_fetches (output_of ascii_upper records_frame text_rows w korea_session) = 1%nat /\
  holiday_fetches (output_of ascii_upper records_frame text_rows w s1) = 1%nat.
Proof. vm_compute. split; reflexivity. Qed.

(** The guard of line 117 is a truth-value test: an empty code is treated
    like [None] and the prompt is shown. *)
Example empty_code_shows_prompt :
  let w := world (Some demo_secrets) None korea new_year in
  let s := mkSession None None None (Some (Some EmptyString)) (Some (JStr EmptyString)) in
  output_of ascii_upper records_frame text_rows w s =
    [EvPageConfig; EvTitle; EvMarkdown;
     EvMap (37.5665%float, 126.9780%float) 4 None; EvInfo MsgClickPrompt].
Proof. vm_compute. reflexivity. Qed.

Lemma missing_api_key_halts_witness :
  configured_key (world None (Some seoul) korea no_holidays) = None /\
  result_of ascii_upper records_frame text_rows
    (world None (Some seoul) korea no_holidays) korea_session = Stop.
Proof.
  split; [reflexivity|].
  apply (missing_api_key_halts ascii_upper records_frame text_rows
           (world None (Some seoul) korea no_holidays) korea_session).
  reflexivity.
Defined.

Lemma click_moves_map_witness :
  zoom (session_after ascii_upper records_frame text_rows
          (world (Some demo_secrets) (Some mid_ocean) nowhere no_holidays)
          korea_session) = Some 6.
Proof.
  apply (click_moves_map ascii_upper records_frame text_rows
           (world (Some demo_secrets) (Some mid_ocean) nowhere no_holidays)
           korea_session "demo-key" mid_ocean);
    vm_compute; reflexivity.
Defined.

Lemma unresolved_click_clears_country_witness :
  country_code (session_after ascii_upper records_frame text_rows
                  (world (Some demo_secrets) (Some mid_ocean) nowhere no_holidays)
                  korea_session) = Some None.
Proof.
  apply (unresolved_click_clears_country ascii_upper records_frame text_rows
           (world (Some demo_secrets) (Some mid_ocean) nowhere no_holidays)
           korea_session "demo-key" mid_ocean);
    vm_compute; reflexivity.
Defined.

Lemma geocode_request_shape_witness :
  exists p ua,
    clicked_point (world (Some demo_secrets) (Some seoul) korea no_holidays) = Some p /\
    params (geocode_request seoul) =
      [("lat", PFloat (lat p)); ("lon", PFloat (lng p));
       ("format", PStr "json"); ("accept-language", PStr "en")] /\
    req_headers (geocode_request seoul) = [("User-Agent", ua)] /\
    ua <> EmptyString.
Proof.
  apply (geocode_request_shape ascii_upper records_frame text_rows
           (world (Some demo_secrets) (Some seoul) korea no_holidays)
           new_session (geocode_request seoul)).
  - vm_compute. do 4 right. left. reflexivity.
  - reflexivity.
Defined.

Lemma failed_fetch_keeps_country_witness :
  country_code (session_after ascii_upper records_frame text_rows
                  (world (Some demo_secrets) None korea unauthorized)
                  korea_session) = Some (Some "KR").
Proof.
  apply (failed_fetch_keeps_country ascii_upper records_frame text_rows
           (world (Some demo_secrets) None korea unauthorized) korea_session
           (holiday_request "demo-key" "KR" 2026)).
  - vm_compute. do 5 right. left. reflexivity.
  - reflexivity.
  - vm_compute. reflexivity.
Defined.

Lemma empty_holidays_is_information_witness :
  exists n,
    country_name korea_session = Some n /\
    In (EvInfo (MsgNoHolidays n))
       (output_of ascii_upper records_frame text_rows
          (world (Some demo_secrets) None korea no_holidays) korea_session) /\
    existsb is_alert
       (output_of ascii_upper records_frame text_rows
          (world (Some demo_secrets) None korea no_holidays) korea_session) = false /\
    existsb is_table
       (output_of ascii_upper records_frame text_rows
          (world (Some demo_secrets) None korea no_holidays) korea_session) = false /\
    result_of ascii_upper records_frame text_rows
       (world (Some demo_secrets) None korea no_holidays) korea_session = Done tt.
Proof.
  apply (empty_holidays_is_information ascii_upper records_frame text_rows
           (world (Some demo_secrets) None korea no_holidays) korea_session
           (holiday_request "demo-key" "KR" 2026)).
  - vm_compute. do 5 right. left. reflexivity.
  - reflexivity.
  - vm_compute. reflexivity.
Defined.

Lemma stored_country_code_is_upper_case_witness :
  ascii_upper "KR" = "KR".
Proof.
  apply (stored_country_code_is_upper_case ascii_upper records_frame text_rows
           ascii_upper_idempotent
           [world (Some demo_secrets) (Some seoul) korea no_holidays] "KR").
  vm_compute. reflexivity.
Defined.

(** C10, as stated, fails: the geocoder may answer with [address.country]
    present and null; then the click stores the code "KR" and a
    [country_name] of [None]. *)
Lemma null_country_name_counterexample :
  country_code
    (run_session ascii_upper records_frame text_rows
       [world (Some demo_secrets) (Some seoul) korea_null_name no_holidays]
       new_session) = Some (Some "KR") /\
  country_name
    (run_session ascii_upper records_frame text_rows
       [world (Some demo_secrets) (Some seoul) korea_null_name no_holidays]
       new_session) = Some JNull.
Proof. vm_compute. split; reflexivity. Qed.

(** ** The further properties at work *)

Lemma falsy_holidays_are_information_witness :
  output_of ascii_upper records_frame text_rows
    (world (Some demo_secrets) None korea null_holidays) korea_session =
  (results_top (world (Some demo_secrets) None korea null_holidays)
     korea_session "demo-key" "KR" (JStr "South Korea") ++
   [EvInfo (MsgNoHolidays (JStr "South Korea"))])%list.
Proof.
  apply (falsy_holidays_are_information ascii_upper records_frame text_rows
           (world (Some demo_secrets) None korea null_holidays) korea_session
           "demo-key" "KR" (JStr "South Korea") JNull);
    vm_compute; repeat split; reflexivity.
Defined.

Lemma truthy_holidays_are_tabulated_witness :
  result_of ascii_upper records_frame text_rows
    (world (Some demo_secrets) None korea new_year) korea_session = Done tt.
Proof.
  apply (truthy_holidays_are_tabulated ascii_upper records_frame text_rows
           (world (Some demo_secrets) None korea new_year) korea_session
           "demo-key" "KR" (JStr "South Korea")
           (JArr [obj [("name", JStr "New Year's Day");
                       ("description", JStr "First day of the year");
                       ("date", obj [("iso", JStr "2026-01-01")])]]));
    vm_compute; repeat split; reflexivity.
Defined.

Lemma missing_holidays_field_is_dumped_witness :
  output_of ascii_upper records_frame text_rows
    (world (Some demo_secrets) None korea no_response_field) korea_session =
  (results_top (world (Some demo_secrets) None korea no_response_field)
     korea_session "demo-key" "KR" (JStr "South Korea") ++
   [EvError MsgBadResponseFormat;
    EvJson (obj [("meta", obj [("code", JInt 200)])])])%list.
Proof.
  apply (missing_holidays_field_is_dumped ascii_upper records_frame text_rows
           (world (Some demo_secrets) None korea no_response_field) korea_session
           "demo-key" "KR" (JStr "South Korea"));
    vm_compute; repeat split; reflexivity.
Defined.

Lemma scalar_body_is_unknown_error_witness :
  output_of ascii_upper records_frame text_rows
    (world (Some demo_secrets) None korea null_body) korea_session =
  (results_top (world (Some demo_secrets) None korea null_body)
     korea_session "demo-key" "KR" (JStr "South Korea") ++
   [EvError (MsgHolidayUnknownError TypeError)])%list.
Proof.
  apply (scalar_body_is_unknown_error ascii_upper records_frame text_rows
           (world (Some demo_secrets) None korea null_body) korea_session
           "demo-key" "KR" (JStr "South Korea"));
    vm_compute; repeat split; reflexivity.
Defined.

Lemma unreachable_service_single_error_witness :
  output_of ascii_upper records_frame text_rows
    (world (Some demo_secrets) None korea timed_out) korea_session =
  (results_top (world (Some demo_secrets) None korea timed_out)
     korea_session "demo-key" "KR" (JStr "South Korea") ++
   [EvError (MsgHolidayRequestError (ConnectionError "timed out"))])%list.
Proof.
  apply (unreachable_service_single_error ascii_upper records_frame text_rows
           (world (Some demo_secrets) None korea timed_out) korea_session
           "demo-key" "KR" (JStr "South Korea") "timed out");
    vm_compute; repeat split; reflexivity.
Defined.

Lemma error_status_shows_server_message_witness :
  output_of ascii_upper records_frame text_rows
    (world (Some demo_secrets) None korea unauthorized_with_message)
    korea_session =
  (results_top (world (Some demo_secrets) None korea unauthorized_with_message)
     korea_session "demo-key" "KR" (JStr "South Korea") ++
   [EvError (MsgHolidayRequestError (HTTPError 401));
    EvError (MsgApiServerMessage (JStr "Invalid API key"))])%list.
Proof.
  apply (error_status_shows_server_message ascii_upper records_frame text_rows
           (world (Some demo_secrets) None korea unauthorized_with_message)
           korea_session "demo-key" "KR" (JStr "South Korea")
           (mkResponse 401
              (Some (obj [("response", obj [("error", JStr "Invalid API key")])]))));
    vm_compute; repeat split; reflexivity.
Defined.

Lemma unmatched_location_warns_witness :
  result_of ascii_upper records_frame text_rows
    (world (Some demo_secrets) (Some mid_ocean) nowhere no_holidays)
    korea_session = Done tt.
Proof.
  apply (unmatched_location_warns ascii_upper records_frame text_rows
           (world (Some demo_secrets) (Some mid_ocean) nowhere no_holidays)
           korea_session "demo-key" mid_ocean);
    vm_compute; reflexivity.
Defined.

Lemma mistyped_country_code_is_unknown_error_witness :
  result_of ascii_upper records_frame text_rows
    (world (Some demo_secrets) (Some seoul) numeric_country_code no_holidays)
    new_session = Done tt.
Proof.
  apply (mistyped_country_code_is_unknown_error ascii_upper records_frame text_rows
           (world (Some demo_secrets) (Some seoul) numeric_country_code no_holidays)
           new_session "demo-key" seoul);
    vm_compute; reflexivity.
Defined.

Lemma geocoder_failure_is_request_error_witness :
  result_of ascii_upper records_frame text_rows
    (world (Some demo_secrets) (Some seoul) timed_out no_holidays)
    new_session = Done tt.
Proof.
  apply (geocoder_failure_is_request_error ascii_upper records_frame text_rows
           (world (Some demo_secrets) (Some seoul) timed_out no_holidays)
           new_session "demo-key" seoul (ConnectionError "timed out"));
    vm_compute; reflexivity.
Defined.

Lemma click_supersedes_country_witness :
  country_code (session_after ascii_upper records_frame text_rows
                  (world (Some demo_secrets) (Some mid_ocean) nowhere no_holidays)
                  korea_session) =
  country_code (session_after ascii_upper records_frame text_rows
                  (world (Some demo_secrets) (Some mid_ocean) nowhere no_holidays)
                  new_session).
Proof.
  apply (click_supersedes_country ascii_upper records_frame text_rows
           (world (Some demo_secrets) (Some mid_ocean) nowhere no_holidays)
           korea_session new_session "demo-key" mid_ocean);
    vm_compute; reflexivity.
Defined.

Lemma click_free_run_settles_witness :
  session_after ascii_upper records_frame text_rows
    (world (Some demo_secrets) None korea unauthorized)
    (session_after ascii_upper records_frame text_rows
       (world (Some demo_secrets) None korea new_year) new_session) =
  session_after ascii_upper records_frame text_rows
    (world (Some demo_secrets) None korea new_year) new_session.
Proof.
  apply (click_free_run_settles ascii_upper records_frame text_rows
           (world (Some demo_secrets) None korea new_year)
           (world (Some demo_secrets) None korea unauthorized)
           new_session "demo-key" "demo-key");
    vm_compute; reflexivity.
Defined.

Lemma marker_appears_in_next_run_witness :
  exists rest,
    output_of ascii_upper records_frame text_rows
      (world (Some demo_secrets) None korea new_year)
      (session_after ascii_upper records_frame text_rows
         (world (Some demo_secrets) (Some seoul) korea new_year) new_session) =
    ([EvPageConfig; EvTitle; EvMarkdown;
      EvMap (lat seoul, lng seoul) 6 (Some (lat seoul, lng seoul))] ++ rest)%list.
Proof.
  apply (marker_appears_in_next_run ascii_upper records_frame text_rows
           (world (Some demo_secrets) (Some seoul) korea new_year)
           (world (Some demo_secrets) None korea new_year)
           new_session "demo-key" "demo-key" seoul);
    vm_compute; reflexivity.
Defined.

Lemma resolved_click_then_fetch_witness :
  result_of ascii_upper records_frame text_rows
    (world (Some demo_secrets) (Some seoul) korea new_year) new_session = Rerun.
Proof.
  apply (resolved_click_then_fetch ascii_upper records_frame text_rows
           (world (Some demo_secrets) (Some seoul) korea new_year)
           (world (Some demo_secrets) None korea new_year)
           new_session "demo-key" "demo-key" "kr"
           (list_to_map [("country", JStr "South Korea");
                         ("country_code", JStr "kr")]) seoul);
    vm_compute; reflexivity.
Defined.
